(** * EIP-7966 benchmark: shallow embedding and verified properties

    The development follows the TypeScript sources:
    - [src/lib/format-utils.ts]       ([truncateHash]),
    - [src/components/ComparisonCard.tsx] ([ComparisonCard]),
    - [src/lib/benchmark-runner.ts]   ([runAsyncTransaction], [runSyncTransaction]),
    - the two orchestrators ([runBenchmark] with and without the Preparing state).

    JavaScript numbers that hold [Date.now()] readings and their differences
    are integers and are modelled as [Z]; [bigint] is [Z]; strings are
    [string] (one character per code unit). *)

From Stdlib Require Import ZArith List String Ascii Bool Lia.
Import ListNotations.
Open Scope string_scope.
Open Scope Z_scope.

(* ------------------------------------------------------------------ *)
(** ** JavaScript string helpers *)

Module JS.

(** [String.prototype.slice(start, end)]: a negative index counts from the
    end of the string, indexes are clamped to [0, length]. *)
Definition rel_index (len i : Z) : Z :=
  if i <? 0 then Z.max (len + i) 0 else Z.min i len.

Definition slice (s : string) (start : Z) (end_ : option Z) : string :=
  let len := Z.of_nat (String.length s) in
  let from := rel_index len start in
  let to := match end_ with
            | None => len
            | Some e => rel_index len e
            end in
  substring (Z.to_nat from) (Z.to_nat (Z.max (to - from) 0)) s.

(** Truthiness of a string: only the empty string is falsy. *)
Definition truthy_string (s : string) : bool :=
  match s with
  | EmptyString => false
  | String _ _ => true
  end.

(** Truthiness of a [bigint | null | undefined] value: [null] and [0n] are
    falsy. *)
Definition truthy_bigint (b : option Z) : bool :=
  match b with
  | None => false
  | Some v => negb (v =? 0)
  end.

End JS.

(* ------------------------------------------------------------------ *)
(** ** src/lib/format-utils.ts *)

(** [if (!hash || hash.length < 10) return hash;
     return `${hash.slice(0, 6)}...${hash.slice(-4)}`;] *)
Definition truncateHash (hash : string) : string :=
  if negb (JS.truthy_string hash) || (Z.of_nat (String.length hash) <? 10)
  then hash
  else JS.slice hash 0 (Some 6) ++ "..." ++ JS.slice hash (-4) None.

(* ------------------------------------------------------------------ *)
(** ** Data model (types/benchmark, lib/instrumented-transport) *)

(** One observed remote call, as the orchestrator's loggers store it. *)
Record RPCCallLog := mkRPCCallLog {
  method : string;
  call_startTime : Z;
  call_endTime : Z;
  call_duration : Z;
  isPending : bool
}.

Inductive FlowType := async | sync.

Inductive Status := success | error.

Record BenchmarkResult := mkBenchmarkResult {
  type : FlowType;
  startTime : Z;
  endTime : Z;
  duration : Z;
  txHash : string;
  status : Status;
  error_message : option string;
  rpcCalls : list RPCCallLog
}.

(* ------------------------------------------------------------------ *)
(** ** src/components/ComparisonCard.tsx *)

Module Comparison.

Inductive Winner := WinnerSync | WinnerAsync.

(** The label rendered for the winner. *)
Definition label (w : Winner) : string :=
  match w with
  | WinnerSync => "Sync (EIP-7966)"
  | WinnerAsync => "Async"
  end.

(** [const winner = syncResult.duration < asyncResult.duration ? ... : ...] *)
Definition winner (asyncResult syncResult : BenchmarkResult) : Winner :=
  if duration syncResult <? duration asyncResult then WinnerSync else WinnerAsync.

(** [const timeDifference = Math.abs(asyncResult.duration - syncResult.duration)] *)
Definition timeDifference (asyncResult syncResult : BenchmarkResult) : Z :=
  Z.abs (duration asyncResult - duration syncResult).

(** The result a winner label stands for: the card's sync slot or its
    async slot. *)
Definition winning_result (asyncResult syncResult : BenchmarkResult)
  : BenchmarkResult :=
  match winner asyncResult syncResult with
  | WinnerSync => syncResult
  | WinnerAsync => asyncResult
  end.

(** The values the card derives from its two props, together with the
    props as they are after rendering (the component only reads them). *)
Record Card := mkCard {
  card_winner : Winner;
  card_margin : Z;
  card_async : BenchmarkResult;
  card_sync : BenchmarkResult
}.

Definition ComparisonCard (asyncResult syncResult : BenchmarkResult) : Card :=
  {| card_winner := winner asyncResult syncResult;
     card_margin := timeDifference asyncResult syncResult;
     card_async := asyncResult;
     card_sync := syncResult |}.

(** A completed result with the given duration, for examples. *)
Definition sample_result (t : FlowType) (d : Z) (h : string) : BenchmarkResult :=
  {| type := t; startTime := 1000; endTime := 1000 + d; duration := d;
     txHash := h; status := success; error_message := None; rpcCalls := [] |}.

End Comparison.

(* ------------------------------------------------------------------ *)
(** ** Transaction data (src/types/client-types.ts, src/lib/benchmark-runner.ts) *)

Record Account := mkAccount { address : string }.

(** [paymasterConfig] (config/paymaster-config): the fixed paymaster fields
    spread into every parameter set. *)
Record PaymasterConfig := mkPaymasterConfig {
  cfg_paymaster : string;
  cfg_paymasterInput : string
}.

(** Constants imported from outside the sources. *)
Record Config := mkConfig {
  paymasterConfig : PaymasterConfig;
  abstractTestnet_id : Z     (* [abstractTestnet.id] *)
}.

(** [zeroAddress] of viem. *)
Definition zeroAddress : string := "0x0000000000000000000000000000000000000000".

Module PrefetchOptions.
Record t := mk { nonce : bool; gasParams : bool; chainId : bool }.
End PrefetchOptions.

Module PrefetchedGas.
Record t := mk { maxFeePerGas : Z; maxPriorityFeePerGas : Z; gas : Z }.
End PrefetchedGas.

(** [TransactionParams], with the two fields the fast path adds ([from],
    [chainId]); an absent optional field is [None]. *)
Module TransactionParams.
Record t := mk {
  to : string;
  value : Z;
  paymaster : option string;
  paymasterInput : option string;
  nonce : option Z;
  maxFeePerGas : option Z;
  maxPriorityFeePerGas : option Z;
  gas : option Z;
  from : option string;
  chainId : option Z
}.

Definition set_nonce (n : Z) (p : t) : t :=
  mk (to p) (value p) (paymaster p) (paymasterInput p) (Some n)
     (maxFeePerGas p) (maxPriorityFeePerGas p) (gas p) (from p) (chainId p).

Definition set_gas (g : PrefetchedGas.t) (p : t) : t :=
  mk (to p) (value p) (paymaster p) (paymasterInput p) (nonce p)
     (Some (PrefetchedGas.maxFeePerGas g))
     (Some (PrefetchedGas.maxPriorityFeePerGas g))
     (Some (PrefetchedGas.gas g)) (from p) (chainId p).

Definition set_from_chainId (a : string) (c : Z) (p : t) : t :=
  mk (to p) (value p) (paymaster p) (paymasterInput p) (nonce p)
     (maxFeePerGas p) (maxPriorityFeePerGas p) (gas p) (Some a) (Some c).
End TransactionParams.

Record Receipt := mkReceipt { transactionHash : string }.

Record Block := mkBlock { baseFeePerGas : option Z }.

(* ------------------------------------------------------------------ *)
(** ** Effects: clock reads, client calls, the call-log arrays *)

(** What an awaited operation rejects with: an [Error] object carrying a
    message, or any other thrown value. *)
Inductive Thrown :=
| ErrorObject (message : string)
| OtherValue.

(** [error instanceof Error ? error.message : "Unknown error"] *)
Definition error_text (e : Thrown) : string :=
  match e with
  | ErrorObject m => m
  | OtherValue => "Unknown error"
  end.

Inductive Settled (A : Type) :=
| Fulfilled (a : A)
| Rejected (e : Thrown).
Arguments Fulfilled {A} a.
Arguments Rejected {A} e.

(** The client methods the core invokes, with their arguments. *)
Inductive Invocation :=
| Call_prepareTransactionRequest (p : TransactionParams.t)
| Call_signTransaction (r : TransactionParams.t)
| Call_sendTransaction (p : TransactionParams.t)
| Call_sendRawTransaction (serializedTransaction : string)
| Call_waitForTransactionReceipt (hash : string)
| Call_sendRawTransactionSync (serializedTransaction : string)
| Call_getBlock
| Call_request_maxPriorityFeePerGas
| Call_estimateGas (account to : string) (value : Z)
| Call_getTransactionCount (address : string).

(** Events a transport reports to its observers. *)
Inductive WireEvent :=
| CallStarted (m : string) (start : Z)
| CallCompleted (m : string) (start end_ : Z).

(** What the network answers to one client method: the wire-level calls the
    method performs, in the order their events are delivered, and the value
    the returned promise settles with. *)
Record Reply (A : Type) := mkReply {
  wire : list WireEvent;
  settled : Settled A
}.
Arguments mkReply {A} wire settled.
Arguments wire {A} r.
Arguments settled {A} r.

(** The two call-log arrays a run allocates. *)
Inductive ArrayRef := asyncRPCCalls | syncRPCCalls.

Definition ArrayRef_eqb (a b : ArrayRef) : bool :=
  match a, b with
  | asyncRPCCalls, asyncRPCCalls | syncRPCCalls, syncRPCCalls => true
  | _, _ => false
  end.

Definition Store := ArrayRef -> list RPCCallLog.

Definition store_set (r : ArrayRef) (v : list RPCCallLog) (s : Store) : Store :=
  fun r' => if ArrayRef_eqb r r' then v else s r'.

Definition empty_store : Store := fun _ => [].

Record State := mkState {
  ticks : nat;                  (* number of [Date.now()] reads so far *)
  trace : list Invocation;      (* client methods invoked so far *)
  rejected : list (Invocation * Thrown);  (* the invocations that rejected *)
  store : Store                 (* contents of the call-log arrays *)
}.

(** A computation that may throw. *)
Definition M (A : Type) := State -> Settled A * State.

Definition ret {A} (a : A) : M A := fun st => (Fulfilled a, st).

Definition bind {A B} (m : M A) (k : A -> M B) : M B :=
  fun st => match m st with
            | (Fulfilled a, st') => k a st'
            | (Rejected e, st') => (Rejected e, st')
            end.

Definition throw {A} (e : Thrown) : M A := fun st => (Rejected e, st).

(** [try { body } catch (error) { handler }] where the handler does not
    throw. *)
Definition try_catch {A} (body : M A) (handler : Thrown -> State -> A * State)
  : State -> A * State :=
  fun st => match body st with
            | (Fulfilled a, st') => (a, st')
            | (Rejected e, st') => handler e st'
            end.

Declare Scope flow_scope.
Delimit Scope flow_scope with flow.
Notation "x <- m ;; k" := (bind m (fun x => k))
  (at level 61, m at next level, right associativity) : flow_scope.
Notation "m ;;; k" := (bind m (fun _ => k))
  (at level 61, right associativity) : flow_scope.

(** [Date.now()] against a clock given by its successive readings. *)
Definition date_now (clock : nat -> Z) : M Z :=
  fun st => (Fulfilled (clock (ticks st)),
             mkState (S (ticks st)) (trace st) (rejected st) (store st)).

Definition read_array (r : ArrayRef) : M (list RPCCallLog) :=
  fun st => (Fulfilled (store st r), st).

(* ------------------------------------------------------------------ *)
(** ** Instrumented transport and clients *)

(** The two sinks a transport is created with: the completion logger and
    the optional start logger.  Each is a closure over the call-log arrays,
    hence a transformer of the store. *)
Record Observers := mkObservers {
  rpcCallLogger : RPCCallLog -> Store -> Store;
  rpcStartLogger : option (string -> Z -> Store -> Store)
}.

(** Modelled from the spec: [createInstrumentedTransport]
    (lib/instrumented-transport is not among the sources).  Before a call
    is forwarded a "call started" event with the method and the start
    timestamp goes to the start observer, if one was supplied; after the
    call settles, whatever the outcome, a "call completed" event with
    method, start, end and duration = end - start goes to the completion
    observer. *)
Definition observe (o : Observers) (ev : WireEvent) (s : Store) : Store :=
  match ev with
  | CallStarted m t =>
      match rpcStartLogger o with
      | Some onStart => onStart m t s
      | None => s
      end
  | CallCompleted m t e =>
      rpcCallLogger o (mkRPCCallLog m t e (e - t) false) s
  end.

Definition observe_all (o : Observers) (evs : list WireEvent) (s : Store) : Store :=
  fold_left (fun acc ev => observe o ev acc) evs s.

Record WalletClient := mkWalletClient {
  prepareTransactionRequest : TransactionParams.t -> Reply TransactionParams.t;
  signTransaction : TransactionParams.t -> Reply string;
  sendTransaction : TransactionParams.t -> Reply string
}.

(** [request_maxPriorityFeePerGas] stands for
    [request({ method: 'eth_maxPriorityFeePerGas' })] followed by [BigInt]. *)
Record PublicClient := mkPublicClient {
  sendRawTransaction : string -> Reply string;
  waitForTransactionReceipt : string -> Reply Receipt;
  sendRawTransactionSync : string -> Reply Receipt;
  getBlock : Reply Block;
  request_maxPriorityFeePerGas : Reply Z;
  estimateGas : string -> string -> Z -> Reply Z;
  getTransactionCount : string -> Reply Z
}.

(** [TransactionClientsWithAccount]: the two clients, the observers their
    transports report to, and the account. *)
Record TransactionClients := mkClients {
  walletClient : WalletClient;
  publicClient : PublicClient;
  transport : Observers;
  prefetchChainId : bool;
  account : Account
}.

(** Awaiting one client method: the invocation is recorded (and, when the
    promise rejects, the rejection), the transport reports the wire events
    to the observers, and the promise settles. *)
Definition await {A} (c : TransactionClients) (inv : Invocation) (r : Reply A) : M A :=
  fun st => (settled r,
             mkState (ticks st) (trace st ++ [inv])
                     (match settled r with
                      | Fulfilled _ => rejected st
                      | Rejected e => rejected st ++ [(inv, e)]
                      end)
                     (observe_all (transport c) (wire r) (store st))).

(* ------------------------------------------------------------------ *)
(** ** src/lib/benchmark-runner.ts *)

Section Runner.
Variable cfg : Config.
Variable clock : nat -> Z.

Local Open Scope flow_scope.

(** The parameter assembly shared by both flows:
    [{ to: zeroAddress, value: BigInt(0), ...paymasterConfig }], then the
    nonce when [prefetchOptions.nonce], then the three gas fields when
    [prefetchOptions.gasParams && prefetchedGas]. *)
Definition base_txParams : TransactionParams.t :=
  TransactionParams.mk zeroAddress 0
    (Some (cfg_paymaster (paymasterConfig cfg)))
    (Some (cfg_paymasterInput (paymasterConfig cfg)))
    None None None None None None.

Definition assemble_txParams (nonce : Z) (prefetchOptions : PrefetchOptions.t)
    (prefetchedGas : option PrefetchedGas.t) : TransactionParams.t :=
  let txParams := base_txParams in
  let txParams :=
    if PrefetchOptions.nonce prefetchOptions
    then TransactionParams.set_nonce nonce txParams else txParams in
  match PrefetchOptions.gasParams prefetchOptions, prefetchedGas with
  | true, Some g => TransactionParams.set_gas g txParams
  | _, _ => txParams
  end.

(** [prefetchOptions.nonce && prefetchOptions.gasParams &&
     prefetchOptions.chainId && prefetchedGas] *)
Definition all_prefetched (prefetchOptions : PrefetchOptions.t)
    (prefetchedGas : option PrefetchedGas.t) : bool :=
  PrefetchOptions.nonce prefetchOptions
  && PrefetchOptions.gasParams prefetchOptions
  && PrefetchOptions.chainId prefetchOptions
  && match prefetchedGas with Some _ => true | None => false end.

(** The [catch] branch of both flows. *)
Definition error_result (t : FlowType) (startTime : Z) (rpcCalls : ArrayRef)
    (caught : Thrown) : State -> BenchmarkResult * State :=
  fun st =>
    let endTime := clock (ticks st) in
    (mkBenchmarkResult t startTime endTime (endTime - startTime) ""
       error (Some (error_text caught)) (store st rpcCalls),
     mkState (S (ticks st)) (trace st) (rejected st) (store st)).

(** The [console.log] lines are left out; the [Date.now()] reads that feed
    them are kept, since they advance the clock's read position.  The older
    copy of the runner has the same two functions without those timing
    reads; calls, results and error handling are the same. *)
Definition runAsyncTransaction (clients : TransactionClients) (nonce : Z)
    (rpcCalls : ArrayRef) (prefetchOptions : PrefetchOptions.t)
    (prefetchedGas : option PrefetchedGas.t) : State -> BenchmarkResult * State :=
  fun st0 =>
    let startTime := clock (ticks st0) in
    let st1 := mkState (S (ticks st0)) (trace st0) (rejected st0) (store st0) in
    try_catch
      (paramsStartTime <- date_now clock ;;
       let txParams := assemble_txParams nonce prefetchOptions prefetchedGas in
       paramsEndTime <- date_now clock ;;
       hash <-
         (if all_prefetched prefetchOptions prefetchedGas then
            requestStartTime <- date_now clock ;;
            let requestToSign :=
              TransactionParams.set_from_chainId
                (address (account clients)) (abstractTestnet_id cfg) txParams in
            requestEndTime <- date_now clock ;;
            signStartTime <- date_now clock ;;
            serializedTransaction <-
              await clients (Call_signTransaction requestToSign)
                (signTransaction (walletClient clients) requestToSign) ;;
            signEndTime <- date_now clock ;;
            sendStartTime <- date_now clock ;;
            hash <- await clients (Call_sendRawTransaction serializedTransaction)
                      (sendRawTransaction (publicClient clients) serializedTransaction) ;;
            sendEndTime <- date_now clock ;;
            ret hash
          else
            sendTxStartTime <- date_now clock ;;
            hash <- await clients (Call_sendTransaction txParams)
                      (sendTransaction (walletClient clients) txParams) ;;
            sendTxEndTime <- date_now clock ;;
            ret hash) ;;
       waitStartTime <- date_now clock ;;
       await clients (Call_waitForTransactionReceipt hash)
         (waitForTransactionReceipt (publicClient clients) hash) ;;;
       waitEndTime <- date_now clock ;;
       endTime <- date_now clock ;;
       calls <- read_array rpcCalls ;;
       ret (mkBenchmarkResult async startTime endTime (endTime - startTime)
              hash success None calls))
      (error_result async startTime rpcCalls)
      st1.

Definition runSyncTransaction (clients : TransactionClients) (nonce : Z)
    (rpcCalls : ArrayRef) (prefetchOptions : PrefetchOptions.t)
    (prefetchedGas : option PrefetchedGas.t) : State -> BenchmarkResult * State :=
  fun st0 =>
    let startTime := clock (ticks st0) in
    let st1 := mkState (S (ticks st0)) (trace st0) (rejected st0) (store st0) in
    try_catch
      (paramsStartTime <- date_now clock ;;
       let txParams := assemble_txParams nonce prefetchOptions prefetchedGas in
       paramsEndTime <- date_now clock ;;
       prepareStartTime <- date_now clock ;;
       request <- await clients (Call_prepareTransactionRequest txParams)
                    (prepareTransactionRequest (walletClient clients) txParams) ;;
       prepareEndTime <- date_now clock ;;
       signStartTime <- date_now clock ;;
       serializedTransaction <-
         await clients (Call_signTransaction request)
           (signTransaction (walletClient clients) request) ;;
       signEndTime <- date_now clock ;;
       sendStartTime <- date_now clock ;;
       receipt <- await clients (Call_sendRawTransactionSync serializedTransaction)
                    (sendRawTransactionSync (publicClient clients) serializedTransaction) ;;
       sendEndTime <- date_now clock ;;
       endTime <- date_now clock ;;
       calls <- read_array rpcCalls ;;
       ret (mkBenchmarkResult sync startTime endTime (endTime - startTime)
              (transactionHash receipt) success None calls))
      (error_result sync startTime rpcCalls)
      st1.

End Runner.

(* ------------------------------------------------------------------ *)
(** ** src/lib/benchmark-clients.ts and the orchestrators' loggers *)

(** [Array.prototype.findIndex], with [None] for -1. *)
Fixpoint findIndex {A} (p : A -> bool) (l : list A) : option nat :=
  match l with
  | [] => None
  | x :: l' => if p x then Some 0%nat else option_map S (findIndex p l')
  end.

(** [arr[i] = x] for an index inside the array. *)
Fixpoint assign_at {A} (i : nat) (x : A) (l : list A) : list A :=
  match l, i with
  | [], _ => []
  | _ :: l', O => x :: l'
  | y :: l', S i' => y :: assign_at i' x l'
  end.

(** The completion logger both orchestrators pass for a flow: update the
    first pending entry with the same method and start time, or append. *)
Definition completion_logger (arr : ArrayRef) (log : RPCCallLog) (s : Store) : Store :=
  let calls := s arr in
  let done := mkRPCCallLog (method log) (call_startTime log) (call_endTime log)
                (call_duration log) false in
  match findIndex (fun call => String.eqb (method call) (method log)
                               && isPending call
                               && (call_startTime call =? call_startTime log)) calls with
  | Some pendingIndex => store_set arr (assign_at pendingIndex done calls) s
  | None => store_set arr (calls ++ [done]) s
  end.

(** The start logger: append a pending entry. *)
Definition start_logger (arr : ArrayRef) (m : string) (start : Z) (s : Store) : Store :=
  store_set arr (s arr ++ [mkRPCCallLog m start 0 0 true]) s.

(** [() => {}] *)
Definition empty_logger (log : RPCCallLog) (s : Store) : Store := s.

(** The client instances one run creates; the network may answer each
    differently. *)
Inductive ClientId :=
| prefetchClients | asyncClients | syncClients | tempAsyncClient | tempSyncClient.

Definition Network := ClientId -> WalletClient * PublicClient.

(** [createBenchmarkClients(account, rpcCallLogger, rpcStartLogger,
    prefetchChainId)]: both transports report to the given loggers. *)
Definition createBenchmarkClients (net : Network) (id : ClientId) (acct : Account)
    (onComplete : RPCCallLog -> Store -> Store)
    (onStart : option (string -> Z -> Store -> Store))
    (prefetchChainId_ : bool) : TransactionClients :=
  mkClients (fst (net id)) (snd (net id)) (mkObservers onComplete onStart)
            prefetchChainId_ acct.

(** [Promise.all]: every operation is started; the result rejects when one
    of them rejects (the reason of the first one listed is kept). *)
Definition all2 {A B} (a : M A) (b : M B) : M (A * B) :=
  fun st =>
    let (ra, st1) := a st in
    let (rb, st2) := b st1 in
    (match ra, rb with
     | Fulfilled x, Fulfilled y => Fulfilled (x, y)
     | Rejected e, _ => Rejected e
     | _, Rejected e => Rejected e
     end, st2).

Definition all3 {A B C} (a : M A) (b : M B) (c : M C) : M (A * B * C) :=
  all2 (all2 a b) c.

(** Running a computation that cannot throw inside one that can. *)
Definition lift {A} (f : State -> A * State) : M A :=
  fun st => let (a, st') := f st in (Fulfilled a, st').

(** What the orchestrator hands to the two flows. *)
Record Launch := mkLaunch {
  launch_asyncClients : TransactionClients;
  launch_syncClients : TransactionClients;
  asyncNonce : Z;
  syncNonce : Z;
  prefetchedGas : option PrefetchedGas.t;
  asyncStartTime : Z;
  syncStartTime : Z
}.

Section Orchestrators.
Variable cfg : Config.
Variable clock : nat -> Z.
Variable net : Network.
(** [privateKeyToAccount(generatePrivateKey())], twice. *)
Variables asyncAccount syncAccount : Account.

Local Open Scope flow_scope.

(** The gas prefetch, the same text in both orchestrators. *)
Definition prefetch_gas (prefetchOptions : PrefetchOptions.t)
  : M (option PrefetchedGas.t) :=
  if PrefetchOptions.gasParams prefetchOptions then
    let pc := createBenchmarkClients net prefetchClients asyncAccount
                empty_logger None (PrefetchOptions.chainId prefetchOptions) in
    r <- all3 (await pc Call_getBlock (getBlock (publicClient pc)))
              (await pc Call_request_maxPriorityFeePerGas
                 (request_maxPriorityFeePerGas (publicClient pc)))
              (await pc (Call_estimateGas (address asyncAccount) zeroAddress 0)
                 (estimateGas (publicClient pc) (address asyncAccount) zeroAddress 0)) ;;
    let '(block, maxPriorityFee, gasEstimate) := r in
    ret (Some (PrefetchedGas.mk
                 (match baseFeePerGas block with
                  | Some base => if JS.truthy_bigint (Some base)
                                 then base + maxPriorityFee
                                 else maxPriorityFee
                  | None => maxPriorityFee
                  end)
                 maxPriorityFee
                 gasEstimate))
  else ret None.

Definition flow_clients (id : ClientId) (acct : Account) (arr : ArrayRef)
    (prefetchOptions : PrefetchOptions.t) : TransactionClients :=
  createBenchmarkClients net id acct (completion_logger arr)
    (Some (start_logger arr)) (PrefetchOptions.chainId prefetchOptions).

(** Fresh, empty call-log arrays. *)
Definition new_arrays : M unit :=
  fun st => (Fulfilled tt, mkState (ticks st) (trace st) (rejected st) empty_store).

(** *** The orchestrator with the Preparing state

    State setters, partial results and timers only feed the display and
    are left out.  [runBenchmark_setup] is the run up to the point where
    the flows are invoked. *)
Definition runBenchmark_setup (prefetchOptions : PrefetchOptions.t) : M Launch :=
  new_arrays ;;;
  gas <- prefetch_gas prefetchOptions ;;
  let ac := flow_clients asyncClients asyncAccount asyncRPCCalls prefetchOptions in
  let sc := flow_clients syncClients syncAccount syncRPCCalls prefetchOptions in
  nonces <-
    (if negb (PrefetchOptions.nonce prefetchOptions) then
       let ta := createBenchmarkClients net tempAsyncClient asyncAccount
                   empty_logger None (PrefetchOptions.chainId prefetchOptions) in
       let ts := createBenchmarkClients net tempSyncClient syncAccount
                   empty_logger None (PrefetchOptions.chainId prefetchOptions) in
       all2 (await ta (Call_getTransactionCount (address asyncAccount))
               (getTransactionCount (publicClient ta) (address asyncAccount)))
            (await ts (Call_getTransactionCount (address syncAccount))
               (getTransactionCount (publicClient ts) (address syncAccount)))
     else ret (0, 0)) ;;
  asyncStart <- date_now clock ;;
  syncStart <- date_now clock ;;
  ret (mkLaunch ac sc (fst nonces) (snd nonces) gas asyncStart syncStart).

(** [.then(res => { ...; setAsyncResult(res); return res; })]: the flow's
    result is published as it is. *)
Definition publish (start : Z) (res : BenchmarkResult)
  : State -> BenchmarkResult * State :=
  fun st => (res, st).

(** *** The orchestrator without the Preparing state

    Here the start times are read first, and the nonces are fetched
    through the flows' own clients. *)
Definition runBenchmark_setup_legacy (prefetchOptions : PrefetchOptions.t)
  : M Launch :=
  new_arrays ;;;
  asyncStart <- date_now clock ;;
  syncStart <- date_now clock ;;
  gas <- prefetch_gas prefetchOptions ;;
  let ac := flow_clients asyncClients asyncAccount asyncRPCCalls prefetchOptions in
  let sc := flow_clients syncClients syncAccount syncRPCCalls prefetchOptions in
  nonces <-
    (if negb (PrefetchOptions.nonce prefetchOptions) then
       all2 (await ac (Call_getTransactionCount (address asyncAccount))
               (getTransactionCount (publicClient ac) (address asyncAccount)))
            (await sc (Call_getTransactionCount (address syncAccount))
               (getTransactionCount (publicClient sc) (address syncAccount)))
     else ret (0, 0)) ;;
  ret (mkLaunch ac sc (fst nonces) (snd nonces) gas asyncStart syncStart).

(** [.then(res => { const duration = Date.now() - asyncStartTime;
                    const finalResult = { ...res, duration }; ... })] *)
Definition publish_legacy (start : Z) (res : BenchmarkResult)
  : State -> BenchmarkResult * State :=
  fun st =>
    let duration_ := clock (ticks st) - start in
    (mkBenchmarkResult (type res) (startTime res) (endTime res) duration_
       (txHash res) (status res) (error_message res) (rpcCalls res),
     mkState (S (ticks st)) (trace st) (rejected st) (store st)).

(** *** One flow of a run, from the button press to the published result

    The two flows share no mutable state: each logs into its own array
    through its own clients.  Each side is therefore run on its own from
    the state the setup leaves. *)
Definition async_side (l : Launch) (prefetchOptions : PrefetchOptions.t)
  : State -> BenchmarkResult * State :=
  runAsyncTransaction cfg clock (launch_asyncClients l) (asyncNonce l)
    asyncRPCCalls prefetchOptions (prefetchedGas l).

Definition sync_side (l : Launch) (prefetchOptions : PrefetchOptions.t)
  : State -> BenchmarkResult * State :=
  runSyncTransaction cfg clock (launch_syncClients l) (syncNonce l)
    syncRPCCalls prefetchOptions (prefetchedGas l).

Definition runBenchmark_async (prefetchOptions : PrefetchOptions.t)
  : M BenchmarkResult :=
  l <- runBenchmark_setup prefetchOptions ;;
  res <- lift (async_side l prefetchOptions) ;;
  lift (publish (asyncStartTime l) res).

Definition runBenchmark_sync (prefetchOptions : PrefetchOptions.t)
  : M BenchmarkResult :=
  l <- runBenchmark_setup prefetchOptions ;;
  res <- lift (sync_side l prefetchOptions) ;;
  lift (publish (syncStartTime l) res).

Definition runBenchmark_legacy_async (prefetchOptions : PrefetchOptions.t)
  : M BenchmarkResult :=
  l <- runBenchmark_setup_legacy prefetchOptions ;;
  res <- lift (async_side l prefetchOptions) ;;
  lift (publish_legacy (asyncStartTime l) res).

Definition runBenchmark_legacy_sync (prefetchOptions : PrefetchOptions.t)
  : M BenchmarkResult :=
  l <- runBenchmark_setup_legacy prefetchOptions ;;
  res <- lift (sync_side l prefetchOptions) ;;
  lift (publish_legacy (syncStartTime l) res).

End Orchestrators.

Definition initial_state : State := mkState 0 [] [] empty_store.

(* ------------------------------------------------------------------ *)
(** ** Specification predicates and sample environments *)

(** The clock never runs backwards. *)
Definition non_decreasing (clock : nat -> Z) : Prop :=
  forall i j : nat, (i <= j)%nat -> clock i <= clock j.

(** What a flow owes its caller when a step rejects: [run] is the flow
    applied to its arguments, [arr] the call-log array it was given. *)
Definition failure_contract (t : FlowType) (run : State -> BenchmarkResult * State)
    (arr : ArrayRef) (st : State) : Prop :=
  let res := fst (run st) in
  let st' := snd (run st) in
  type res = t /\
  exists rej,
    rejected st' = (rejected st ++ rej)%list /\
    (List.length rej <= 1)%nat /\
    (rej = [] <-> status res = success) /\
    (forall inv e, In (inv, e) rej ->
       status res = error /\
       error_message res = Some (error_text e) /\
       txHash res = "" /\
       rpcCalls res = store st' arr /\
       exists before, trace st' = (before ++ [inv])%list).

Module Sample.

Definition cfg : Config :=
  mkConfig (mkPaymasterConfig "0x5407B5040dec3D339A9247f3654E59EEccbb6391" "0x8c5a3445")
           11124.

(** Readings 1000, 1010, 1020, ... *)
Definition clock (n : nat) : Z := 1000 + 10 * Z.of_nat n.

Definition one_call (m : string) (t : Z) : list WireEvent :=
  [CallStarted m t; CallCompleted m t (t + 7)].

Definition wallet : WalletClient :=
  mkWalletClient
    (fun p => mkReply (one_call "eth_estimateGas" 1) (Fulfilled p))
    (fun _ => mkReply [] (Fulfilled "0xf86c"))
    (fun _ => mkReply (one_call "eth_sendRawTransaction" 20) (Fulfilled "0xabc1")).

Definition public : PublicClient :=
  mkPublicClient
    (fun _ => mkReply (one_call "eth_sendRawTransaction" 20) (Fulfilled "0xabc2"))
    (fun h => mkReply (one_call "eth_getTransactionReceipt" 30)
                (Fulfilled (mkReceipt h)))
    (fun _ => mkReply (one_call "eth_sendRawTransactionSync" 20)
                (Fulfilled (mkReceipt "0xabc3")))
    (mkReply (one_call "eth_getBlockByNumber" 2) (Fulfilled (mkBlock (Some 250))))
    (mkReply (one_call "eth_maxPriorityFeePerGas" 2) (Fulfilled 10))
    (fun _ _ _ => mkReply (one_call "eth_estimateGas" 2) (Fulfilled 21000))
    (fun _ => mkReply (one_call "eth_getTransactionCount" 5) (Fulfilled 0)).

(** A network where waiting for the receipt times out. *)
Definition public_wait_fails : PublicClient :=
  mkPublicClient
    (sendRawTransaction public)
    (fun _ => mkReply (one_call "eth_getTransactionReceipt" 30)
                (Rejected (ErrorObject "receipt timeout")))
    (sendRawTransactionSync public)
    (getBlock public) (request_maxPriorityFeePerGas public)
    (estimateGas public) (getTransactionCount public).

Definition net : Network := fun _ => (wallet, public).

Definition asyncAccount : Account := mkAccount "0x00000000000000000000000000000000000000a1".
Definition syncAccount : Account := mkAccount "0x00000000000000000000000000000000000000b2".

Definition none_prefetched : PrefetchOptions.t := PrefetchOptions.mk false false false.
Definition everything_prefetched : PrefetchOptions.t := PrefetchOptions.mk true true true.
Definition gas_not_prefetched : PrefetchOptions.t := PrefetchOptions.mk true false true.
Definition gas : PrefetchedGas.t := PrefetchedGas.mk 100 10 21000.

Definition logged_clients (pc : PublicClient) (arr : ArrayRef) : TransactionClients :=
  mkClients wallet pc
    (mkObservers (completion_logger arr) (Some (start_logger arr)))
    false asyncAccount.

(** What the setup with the Preparing state hands over on the sample
    network. *)
Definition launch (o : PrefetchOptions.t) : Launch :=
  mkLaunch (flow_clients net asyncClients asyncAccount asyncRPCCalls o)
           (flow_clients net syncClients syncAccount syncRPCCalls o)
           0 0
           (if PrefetchOptions.gasParams o
            then Some (PrefetchedGas.mk 260 10 21000) else None)
           1000 1010.

End Sample.

(* ------------------------------------------------------------------ *)
(** ** Measures on call logs and event sequences *)

(** The observers a flow's clients are created with. *)
Definition flow_observers (arr : ArrayRef) : Observers :=
  mkObservers (completion_logger arr) (Some (start_logger arr)).

(** The test the completion logger's [findIndex] applies for a completed
    call of method [m] started at [t]. *)
Definition same_call (m : string) (t : Z) (call : RPCCallLog) : bool :=
  String.eqb (method call) m && isPending call && (call_startTime call =? t).

Definition pending_count (m : string) (t : Z) (l : list RPCCallLog) : nat :=
  List.length (filter (same_call m t) l).

Definition is_start (m : string) (t : Z) (ev : WireEvent) : bool :=
  match ev with
  | CallStarted m' t' => String.eqb m' m && (t' =? t)
  | CallCompleted _ _ _ => false
  end.

Definition is_completion (m : string) (t : Z) (ev : WireEvent) : bool :=
  match ev with
  | CallStarted _ _ => false
  | CallCompleted m' t' _ => String.eqb m' m && (t' =? t)
  end.

Definition starts (m : string) (t : Z) (evs : list WireEvent) : nat :=
  List.length (filter (is_start m t) evs).

Definition completions (m : string) (t : Z) (evs : list WireEvent) : nat :=
  List.length (filter (is_completion m t) evs).

Definition started_calls (evs : list WireEvent) : nat :=
  List.length (filter (fun ev => match ev with
                                 | CallStarted _ _ => true
                                 | CallCompleted _ _ _ => false
                                 end) evs).

(** Every completion event comes after a start event of its own: at each
    point of the sequence, no call (method, start time) has completed more
    often than it has started, counting the entries already pending in
    [l]. *)
Definition completions_follow_starts (l : list RPCCallLog) (evs : list WireEvent) : Prop :=
  forall (n : nat) (m : string) (t : Z),
    (completions m t (firstn n evs)
     <= pending_count m t l + starts m t (firstn n evs))%nat.

(** A pending entry carries the placeholders 0, a completed one its
    measured duration. *)
Definition entry_ok (e : RPCCallLog) : Prop :=
  if isPending e
  then call_endTime e = 0 /\ call_duration e = 0
  else call_duration e = call_endTime e - call_startTime e.

(* ------------------------------------------------------------------ *)
(** ** The older copy of the runner

    The same two functions as above, as the older copy has them: only the
    start and the end time are read from the clock. *)

Module OlderRunner.
Section Runner.
Variable cfg : Config.
Variable clock : nat -> Z.

Local Open Scope flow_scope.

Definition runAsyncTransaction (clients : TransactionClients) (nonce : Z)
    (rpcCalls : ArrayRef) (prefetchOptions : PrefetchOptions.t)
    (prefetchedGas : option PrefetchedGas.t) : State -> BenchmarkResult * State :=
  fun st0 =>
    let startTime := clock (ticks st0) in
    let st1 := mkState (S (ticks st0)) (trace st0) (rejected st0) (store st0) in
    try_catch
      (let txParams := assemble_txParams cfg nonce prefetchOptions prefetchedGas in
       hash <-
         (if all_prefetched prefetchOptions prefetchedGas then
            let requestToSign :=
              TransactionParams.set_from_chainId
                (address (account clients)) (abstractTestnet_id cfg) txParams in
            serializedTransaction <-
              await clients (Call_signTransaction requestToSign)
                (signTransaction (walletClient clients) requestToSign) ;;
            await clients (Call_sendRawTransaction serializedTransaction)
              (sendRawTransaction (publicClient clients) serializedTransaction)
          else
            await clients (Call_sendTransaction txParams)
              (sendTransaction (walletClient clients) txParams)) ;;
       await clients (Call_waitForTransactionReceipt hash)
         (waitForTransactionReceipt (publicClient clients) hash) ;;;
       endTime <- date_now clock ;;
       calls <- read_array rpcCalls ;;
       ret (mkBenchmarkResult async startTime endTime (endTime - startTime)
              hash success None calls))
      (error_result clock async startTime rpcCalls)
      st1.

Definition runSyncTransaction (clients : TransactionClients) (nonce : Z)
    (rpcCalls : ArrayRef) (prefetchOptions : PrefetchOptions.t)
    (prefetchedGas : option PrefetchedGas.t) : State -> BenchmarkResult * State :=
  fun st0 =>
    let startTime := clock (ticks st0) in
    let st1 := mkState (S (ticks st0)) (trace st0) (rejected st0) (store st0) in
    try_catch
      (let txParams := assemble_txParams cfg nonce prefetchOptions prefetchedGas in
       request <- await clients (Call_prepareTransactionRequest txParams)
                    (prepareTransactionRequest (walletClient clients) txParams) ;;
       serializedTransaction <-
         await clients (Call_signTransaction request)
           (signTransaction (walletClient clients) request) ;;
       receipt <- await clients (Call_sendRawTransactionSync serializedTransaction)
                    (sendRawTransactionSync (publicClient clients) serializedTransaction) ;;
       endTime <- date_now clock ;;
       calls <- read_array rpcCalls ;;
       ret (mkBenchmarkResult sync startTime endTime (endTime - startTime)
              (transactionHash receipt) success None calls))
      (error_result clock sync startTime rpcCalls)
      st1.

End Runner.
End OlderRunner.

(** The promise a client method returns rejects. *)
Definition rejects {A} (r : Reply A) : Prop := exists e, settled r = Rejected e.

(* ------------------------------------------------------------------ *)
(** ** The component state of the orchestrator with the Preparing state *)

(** [PartialResult]: the live projection of a flow in flight. *)
Record PartialResult := mkPartialResult {
  partial_type : FlowType;
  partial_startTime : Z;
  partial_rpcCalls : list RPCCallLog;
  isComplete : bool
}.

(** The [useState] cells and the two timer references ([true] while an
    interval is installed and has not been cleared). *)
Record Display := mkDisplay {
  isRunning : bool;
  isPreparing : bool;
  asyncResult : option BenchmarkResult;
  syncResult : option BenchmarkResult;
  asyncPartial : option PartialResult;
  syncPartial : option PartialResult;
  asyncElapsed : Z;
  syncElapsed : Z;
  asyncTimer : bool;
  syncTimer : bool
}.

(** The component as first rendered. *)
Definition initial_display : Display :=
  mkDisplay false false None None None None 0 0 false false.

(** [disabled={isRunning || isPreparing}] on the run button. *)
Definition button_disabled (d : Display) : bool := isRunning d || isPreparing d.

(** [{isPreparing ? "Preparing..." : isRunning ? "Running Benchmark..." :
     "Run Benchmark"}] *)
Definition button_label (d : Display) : string :=
  if isPreparing d then "Preparing..."
  else if isRunning d then "Running Benchmark..." else "Run Benchmark".

(** The setters at the top of [runBenchmark]. *)
Definition begin_run (d : Display) : Display :=
  mkDisplay false true None None (asyncPartial d) (syncPartial d) 0 0
            (asyncTimer d) (syncTimer d).

(** The setters between the setup and the launch of the flows.  While the
    flows run the loggers refresh the call logs inside the two partial
    results; the partial results are followed here at the points where
    they are set as a whole. *)
Definition flows_starting (l : Launch) (d : Display) : Display :=
  mkDisplay true false (asyncResult d) (syncResult d)
            (Some (mkPartialResult async (asyncStartTime l) [] false))
            (Some (mkPartialResult sync (syncStartTime l) [] false))
            (asyncElapsed d) (syncElapsed d) true true.

(** The [.then] callback of the polling flow. *)
Definition async_settled (res : BenchmarkResult) (d : Display) : Display :=
  mkDisplay (isRunning d) (isPreparing d) (Some res) (syncResult d)
            None (syncPartial d) (duration res) (syncElapsed d)
            false (syncTimer d).

(** The [.then] callback of the synchronous flow. *)
Definition sync_settled (res : BenchmarkResult) (d : Display) : Display :=
  mkDisplay (isRunning d) (isPreparing d) (asyncResult d) (Some res)
            (asyncPartial d) None (asyncElapsed d) (duration res)
            (asyncTimer d) false.

(** [setIsRunning(false)] after [Promise.all]. *)
Definition run_complete (d : Display) : Display :=
  mkDisplay false (isPreparing d) (asyncResult d) (syncResult d)
            (asyncPartial d) (syncPartial d) (asyncElapsed d) (syncElapsed d)
            (asyncTimer d) (syncTimer d).

(** The component state a click on the run button ends in.  A rejected
    setup leaves [runBenchmark] at the rejecting [await].  Otherwise the two
    flows run interleaved on the one event loop and never reject; [ra] and
    [rs] are the results their promises settle with, and [async_first]
    tells which [.then] callback runs first. *)
Definition runBenchmark_display (clock : nat -> Z) (net : Network)
    (asyncAccount syncAccount : Account) (async_first : bool)
    (o : PrefetchOptions.t) (st : State) (ra rs : BenchmarkResult)
    (d : Display) : Display :=
  let d1 := begin_run d in
  match runBenchmark_setup clock net asyncAccount syncAccount o st with
  | (Rejected _, _) => d1
  | (Fulfilled l, _) =>
      let d2 := flows_starting l d1 in
      run_complete
        (if async_first
         then sync_settled rs (async_settled ra d2)
         else async_settled ra (sync_settled rs d2))
  end.

(** A network whose latest-block query fails. *)
Module SampleFailure.

Definition public_block_fails : PublicClient :=
  mkPublicClient
    (sendRawTransaction Sample.public)
    (waitForTransactionReceipt Sample.public)
    (sendRawTransactionSync Sample.public)
    (mkReply (Sample.one_call "eth_getBlockByNumber" 2)
       (Rejected (ErrorObject "HTTP request failed")))
    (request_maxPriorityFeePerGas Sample.public)
    (estimateGas Sample.public) (getTransactionCount Sample.public).

Definition net : Network := fun _ => (Sample.wallet, public_block_fails).

End SampleFailure.

(* ================================================================== *)
(** * Theorems *)

(** ** String lemmas *)

Lemma length_append (s t : string) :
  String.length (s ++ t) = (String.length s + String.length t)%nat.
Proof.
  induction s as [|c s IH]; simpl; [reflexivity | now rewrite IH].
Qed.

Lemma length_substring (s : string) (n m : nat) :
  String.length (substring n m s) = Nat.min m (String.length s - n).
Proof.
  revert n m; induction s as [|c s IH]; intros n m.
  - destruct n, m; reflexivity.
  - destruct n as [|n].
    + destruct m as [|m]; simpl; [reflexivity|].
      rewrite IH. now rewrite Nat.sub_0_r.
    + simpl. apply IH.
Qed.

Lemma truthy_string_length (s : string) :
  JS.truthy_string s = false <-> String.length s = 0%nat.
Proof.
  destruct s; simpl; split; intros H; try reflexivity; discriminate.
Qed.

(** ** truncateHash *)

Example truncateHash_short : truncateHash "0x1234" = "0x1234".
Proof. reflexivity. Qed.

Example truncateHash_long :
  truncateHash "0x1234567890abcdef" = "0x1234...cdef".
Proof. reflexivity. Qed.

(** An empty input, or one shorter than 10 characters, is returned
    unchanged. *)
Lemma truncateHash_short_unchanged (hash : string) :
  (String.length hash < 10)%nat -> truncateHash hash = hash.
Proof.
  intros H. unfold truncateHash.
  replace (Z.of_nat (String.length hash) <? 10) with true
    by (symmetry; apply Z.ltb_lt; lia).
  now rewrite orb_true_r.
Qed.

(** An input of length at least 10 becomes its first 6 characters, then
    "...", then its last 4 characters. *)
Lemma truncateHash_long_shape (hash : string) :
  (10 <= String.length hash)%nat ->
  truncateHash hash =
    substring 0 6 hash ++ "..." ++ substring (String.length hash - 4) 4 hash.
Proof.
  intros H. unfold truncateHash.
  replace (Z.of_nat (String.length hash) <? 10) with false
    by (symmetry; apply Z.ltb_ge; lia).
  destruct hash as [|c hash]; [simpl in H; lia|].
  cbv [JS.truthy_string negb orb].
  unfold JS.slice, JS.rel_index.
  set (len := String.length (String c hash)) in *.
  replace (0 <? 0) with false by reflexivity.
  replace (6 <? 0) with false by reflexivity.
  replace (-4 <? 0) with true by reflexivity.
  replace (Z.to_nat (Z.min 0 (Z.of_nat len))) with 0%nat by lia.
  replace (Z.to_nat (Z.max (Z.min 6 (Z.of_nat len) - Z.min 0 (Z.of_nat len)) 0))
    with 6%nat by lia.
  replace (Z.to_nat (Z.max (Z.of_nat len + -4) 0)) with (len - 4)%nat by lia.
  replace (Z.to_nat (Z.max (Z.of_nat len - Z.max (Z.of_nat len + -4) 0) 0))
    with 4%nat by lia.
  reflexivity.
Qed.

(** C10: [truncateHash] returns its input unchanged when it is empty or
    shorter than 10 characters; for every input of length at least 10 it
    returns the first 6 characters, "...", and the last 4 characters, a
    string of exactly 13 characters. *)
Theorem truncateHash_spec (hash : string) :
  ((String.length hash < 10)%nat -> truncateHash hash = hash) /\
  ((10 <= String.length hash)%nat ->
     truncateHash hash =
       substring 0 6 hash ++ "..." ++ substring (String.length hash - 4) 4 hash
     /\ String.length (substring 0 6 hash) = 6%nat
     /\ String.length (substring (String.length hash - 4) 4 hash) = 4%nat
     /\ String.length (truncateHash hash) = 13%nat).
Proof.
  split; [apply truncateHash_short_unchanged|].
  intros H.
  assert (L6 : String.length (substring 0 6 hash) = 6%nat)
    by (rewrite length_substring; lia).
  assert (L4 : String.length (substring (String.length hash - 4) 4 hash) = 4%nat)
    by (rewrite length_substring; lia).
  repeat split; try assumption.
  - now apply truncateHash_long_shape.
  - rewrite truncateHash_long_shape by assumption.
    rewrite !length_append, L6, L4. reflexivity.
Qed.

Lemma truncateHash_spec_witness :
  truncateHash "" = "" /\
  truncateHash "0x1234567890abcdef" = "0x1234...cdef".
Proof.
  split.
  - apply (proj1 (truncateHash_spec "")). simpl. lia.
  - apply (proj2 (truncateHash_spec "0x1234567890abcdef")). simpl. lia.
Defined.

(** ** ComparisonCard *)

Section ComparisonFacts.
Import Comparison.

Example card_sync_faster :
  let c := ComparisonCard (sample_result async 40 "0xaa") (sample_result sync 25 "0xbb") in
  label (card_winner c) = "Sync (EIP-7966)" /\ card_margin c = 15.
Proof. split; reflexivity. Qed.

Example card_async_faster :
  let c := ComparisonCard (sample_result async 25 "0xaa") (sample_result sync 40 "0xbb") in
  label (card_winner c) = "Async" /\ card_margin c = 15.
Proof. split; reflexivity. Qed.

Lemma winner_sync_iff (a s : BenchmarkResult) :
  winner a s = WinnerSync <-> duration s < duration a.
Proof.
  unfold winner. destruct (Z.ltb_spec (duration s) (duration a)); split;
    intros; try assumption; try reflexivity; try discriminate; lia.
Qed.

Lemma winner_async_iff (a s : BenchmarkResult) :
  winner a s = WinnerAsync <-> duration a <= duration s.
Proof.
  unfold winner. destruct (Z.ltb_spec (duration s) (duration a)); split;
    intros; try assumption; try reflexivity; try discriminate; lia.
Qed.

Lemma timeDifference_sym (a b : BenchmarkResult) :
  timeDifference a b = timeDifference b a.
Proof. unfold timeDifference. lia. Qed.

(** C7: the comparison names as winner the result with the strictly lower
    duration, reports as margin the absolute difference of the two
    durations, and leaves both results as they were. *)
Theorem ComparisonCard_winner_margin (a s : BenchmarkResult) :
  let c := ComparisonCard a s in
  (duration s < duration a ->
     card_winner c = WinnerSync /\ winning_result a s = s) /\
  (duration a < duration s ->
     card_winner c = WinnerAsync /\ winning_result a s = a) /\
  card_margin c = (if duration a <=? duration s
                   then duration s - duration a
                   else duration a - duration s) /\
  0 <= card_margin c /\
  card_async c = a /\ card_sync c = s.
Proof.
  cbn [ComparisonCard card_winner card_margin card_async card_sync].
  unfold winning_result.
  split; [|split; [|split; [|split; [|split; reflexivity]]]].
  - intros H. apply winner_sync_iff in H. now rewrite H.
  - intros H.
    assert (W : winner a s = WinnerAsync) by (apply winner_async_iff; lia).
    now rewrite W.
  - unfold timeDifference.
    destruct (Z.leb_spec (duration a) (duration s)); lia.
  - unfold timeDifference. lia.
Qed.

Lemma ComparisonCard_winner_margin_witness :
  card_winner (ComparisonCard (sample_result async 40 "0xaa")
                              (sample_result sync 25 "0xbb")) = WinnerSync.
Proof.
  apply (proj1 (ComparisonCard_winner_margin
                  (sample_result async 40 "0xaa") (sample_result sync 25 "0xbb"))).
  simpl. lia.
Defined.

(** C8 as stated fails on a tie: each order of the arguments names the
    result in its own async slot. *)
Lemma compare_swap_tie_disagrees :
  ~ (forall A B : BenchmarkResult,
       winning_result A B = winning_result B A /\
       timeDifference A B = timeDifference B A).
Proof.
  intros H.
  destruct (H (sample_result async 30 "0xaa") (sample_result sync 30 "0xbb"))
    as [Hw _].
  discriminate Hw.
Qed.

(** C8, amended: for two results with different durations both orders of
    comparison name the same result as winner; the margin is the same in
    both orders for every pair; on a tie each order names the result in
    its async slot. *)
Theorem compare_swap_agree (A B : BenchmarkResult) :
  (duration A <> duration B -> winning_result A B = winning_result B A) /\
  timeDifference A B = timeDifference B A /\
  (duration A = duration B ->
     winning_result A B = A /\ winning_result B A = B).
Proof.
  unfold winning_result, winner.
  split; [|split].
  - intros H.
    destruct (Z.ltb_spec (duration B) (duration A)),
             (Z.ltb_spec (duration A) (duration B)); try reflexivity; lia.
  - apply timeDifference_sym.
  - intros H. rewrite H, Z.ltb_irrefl. split; reflexivity.
Qed.

Lemma compare_swap_agree_witness :
  winning_result (sample_result async 40 "0xaa") (sample_result sync 25 "0xbb")
  = winning_result (sample_result sync 25 "0xbb") (sample_result async 40 "0xaa").
Proof.
  apply (proj1 (compare_swap_agree
                  (sample_result async 40 "0xaa") (sample_result sync 25 "0xbb"))).
  simpl. lia.
Defined.

End ComparisonFacts.

(** ** The submission protocols *)

Ltac unfold_flow :=
  cbv [runAsyncTransaction runSyncTransaction error_result try_catch
       bind date_now await read_array ret ticks trace rejected store].

Ltac case_settled :=
  repeat match goal with
         | |- context [settled ?r] =>
             let E := fresh "E" in destruct (settled r) eqn:E
         end;
  cbn [fst snd].


Section RunnerFacts.
Variable cfg : Config.
Variable clock : nat -> Z.

(** The polling flow outside the fast path: its first call is the standard
    send, and it neither signs nor raw-sends. *)
Lemma runAsyncTransaction_normal_path
    (clients : TransactionClients) (nonce : Z) (arr : ArrayRef)
    (o : PrefetchOptions.t) (g : option PrefetchedGas.t) (st : State) :
  all_prefetched o g = false ->
  exists calls,
    trace (snd (runAsyncTransaction cfg clock clients nonce arr o g st))
      = (trace st ++ calls)%list /\
    hd_error calls = Some (Call_sendTransaction (assemble_txParams cfg nonce o g)) /\
    (forall r, ~ In (Call_signTransaction r) calls) /\
    (forall s, ~ In (Call_sendRawTransaction s) calls).
Proof.
  intros Hall. destruct st as [tk tr rj sto]. unfold_flow. rewrite Hall.
  case_settled; rewrite <- ?app_assoc; cbn [app];
    eexists; (split; [reflexivity|]); cbn [In hd_error];
    (split; [reflexivity|]); split; intros; intuition congruence.
Qed.


(** C2: for every prefetch configuration the synchronous-wait flow has no
    fast path: its first call is always the full preparation of the
    assembled parameters; when the preparation fulfils it signs the
    prepared request; when the signing fulfils it issues one
    synchronous-send call with the signed bytes, and these three are then
    all its calls; when that call fulfils the result is a success whose
    hash is the [transactionHash] of the receipt the call returned.  It
    never issues a receipt-retrieval, send-transaction or raw-send call.
    A step that rejects ends the calls there with an error result, so the
    flow succeeds exactly when the three steps fulfil. *)
Theorem runSyncTransaction_always_prepares
    (clients : TransactionClients) (nonce : Z) (rpcCalls : ArrayRef)
    (o : PrefetchOptions.t) (g : option PrefetchedGas.t) (st : State) :
  let txParams := assemble_txParams cfg nonce o g in
  let run := runSyncTransaction cfg clock clients nonce rpcCalls o g st in
  let prepare := Call_prepareTransactionRequest txParams in
  exists calls,
    trace (snd run) = (trace st ++ calls)%list /\
    hd_error calls = Some prepare /\
    (forall h, ~ In (Call_waitForTransactionReceipt h) calls) /\
    (forall p, ~ In (Call_sendTransaction p) calls) /\
    (forall s, ~ In (Call_sendRawTransaction s) calls) /\
    (forall request,
       settled (prepareTransactionRequest (walletClient clients) txParams)
         = Fulfilled request ->
       nth_error calls 1 = Some (Call_signTransaction request) /\
       (forall ser,
          settled (signTransaction (walletClient clients) request) = Fulfilled ser ->
          calls = [prepare; Call_signTransaction request;
                   Call_sendRawTransactionSync ser] /\
          (forall receipt,
             settled (sendRawTransactionSync (publicClient clients) ser)
               = Fulfilled receipt ->
             status (fst run) = success /\
             txHash (fst run) = transactionHash receipt /\
             error_message (fst run) = None) /\
          (forall e,
             settled (sendRawTransactionSync (publicClient clients) ser)
               = Rejected e ->
             status (fst run) = error)) /\
       (forall e,
          settled (signTransaction (walletClient clients) request) = Rejected e ->
          calls = [prepare; Call_signTransaction request] /\
          status (fst run) = error)) /\
    (forall e,
       settled (prepareTransactionRequest (walletClient clients) txParams)
         = Rejected e ->
       calls = [prepare] /\ status (fst run) = error) /\
    (status (fst run) = success ->
     exists request ser receipt,
       settled (prepareTransactionRequest (walletClient clients) txParams)
         = Fulfilled request /\
       settled (signTransaction (walletClient clients) request) = Fulfilled ser /\
       settled (sendRawTransactionSync (publicClient clients) ser)
         = Fulfilled receipt /\
       calls = [prepare; Call_signTransaction request;
                Call_sendRawTransactionSync ser] /\
       txHash (fst run) = transactionHash receipt).
Proof.
  intros txParams run prepare. subst run prepare.
  destruct st as [tk tr rj sto].
  unfold_flow. fold txParams.
  destruct (settled (prepareTransactionRequest (walletClient clients) txParams))
    as [request|e1] eqn:E1.
  2:{ cbn [fst snd]. eexists; split; [reflexivity|].
      cbn [In hd_error status].
      split; [reflexivity|].
      do 3 (split; [intros; intuition congruence|]).
      split; [intros r Hr; discriminate Hr|].
      split; [intros e _; split; reflexivity|].
      intros Hs; discriminate Hs. }
  destruct (settled (signTransaction (walletClient clients) request))
    as [ser|e2] eqn:E2.
  2:{ cbn [fst snd]. rewrite <- ?app_assoc; cbn [app].
      eexists; split; [reflexivity|]. cbn [In hd_error status].
      split; [reflexivity|].
      do 3 (split; [intros; intuition congruence|]).
      split.
      { intros r Hr. inversion Hr; subst r. split; [reflexivity|].
        split; [intros s Hs; rewrite E2 in Hs; discriminate Hs|].
        intros e _. split; reflexivity. }
      split; [intros e He; discriminate He|].
      intros Hs; discriminate Hs. }
  destruct (settled (sendRawTransactionSync (publicClient clients) ser))
    as [receipt|e3] eqn:E3;
    cbn [fst snd]; rewrite <- ?app_assoc; cbn [app];
    eexists; (split; [reflexivity|]);
    cbn [In hd_error status txHash error_message];
    (split; [reflexivity|]);
    do 3 (split; [intros; intuition congruence|]).
  - split.
    { intros r Hr. inversion Hr; subst r. split; [reflexivity|].
      split; [|intros e He; rewrite E2 in He; discriminate He].
      intros s Hs. rewrite E2 in Hs. inversion Hs; subst s.
      split; [reflexivity|]. split.
      - intros c Hc. rewrite E3 in Hc. inversion Hc; subst c.
        repeat split; reflexivity.
      - intros e He. rewrite E3 in He. discriminate He. }
    split; [intros e He; discriminate He|].
    intros _. exists request, ser, receipt. auto.
  - split.
    { intros r Hr. inversion Hr; subst r. split; [reflexivity|].
      split; [|intros e He; rewrite E2 in He; discriminate He].
      intros s Hs. rewrite E2 in Hs. inversion Hs; subst s.
      split; [reflexivity|]. split.
      - intros c Hc. rewrite E3 in Hc. discriminate Hc.
      - intros e _. reflexivity. }
    split; [intros e He; discriminate He|].
    intros Hs; discriminate Hs.
Qed.

Example async_fast_path_trace :
  trace (snd (runAsyncTransaction Sample.cfg Sample.clock
                (Sample.logged_clients Sample.public asyncRPCCalls) 0 asyncRPCCalls
                Sample.everything_prefetched (Some Sample.gas) initial_state))
  = [Call_signTransaction
       (TransactionParams.mk zeroAddress 0
          (Some "0x5407B5040dec3D339A9247f3654E59EEccbb6391") (Some "0x8c5a3445")
          (Some 0) (Some 100) (Some 10) (Some 21000)
          (Some "0x00000000000000000000000000000000000000a1") (Some 11124));
     Call_sendRawTransaction "0xf86c";
     Call_waitForTransactionReceipt "0xabc2"].
Proof. reflexivity. Qed.

Example async_wait_failure_result :
  fst (runAsyncTransaction Sample.cfg Sample.clock
         (Sample.logged_clients Sample.public_wait_fails asyncRPCCalls) 0 asyncRPCCalls
         Sample.none_prefetched None initial_state)
  = mkBenchmarkResult async 1000 1060 60 "" error (Some "receipt timeout")
      [mkRPCCallLog "eth_sendRawTransaction" 20 27 7 false;
       mkRPCCallLog "eth_getTransactionReceipt" 30 37 7 false].
Proof. reflexivity. Qed.

(** C3 as stated fails: the polling flow obtains the hash "0xabc1" from
    the send call, the wait for the receipt then rejects, and the error
    result carries the empty string, not the hash. *)
Lemma error_result_drops_obtained_hash :
  ~ (forall (clients : TransactionClients) (o : PrefetchOptions.t)
            (g : option PrefetchedGas.t) (hash : string) (e : Thrown),
       all_prefetched o g = false ->
       settled (sendTransaction (walletClient clients)
                  (assemble_txParams Sample.cfg 0 o g)) = Fulfilled hash ->
       settled (waitForTransactionReceipt (publicClient clients) hash) = Rejected e ->
       txHash (fst (runAsyncTransaction Sample.cfg Sample.clock clients 0
                      asyncRPCCalls o g initial_state)) = hash).
Proof.
  intros H.
  specialize (H (Sample.logged_clients Sample.public_wait_fails asyncRPCCalls)
                Sample.none_prefetched None "0xabc1" (ErrorObject "receipt timeout")
                eq_refl eq_refl eq_refl).
  discriminate H.
Qed.

Ltac failure_cases :=
  case_settled; (split; [reflexivity|]);
  first [ exists []; rewrite app_nil_r; split; [reflexivity|];
          split; [cbn; lia|]; cbn [status In];
          split; [split; reflexivity | intros ? ? []]
        | eexists; (split; [reflexivity|]);
          (split; [cbn; lia|]); cbn [status In];
          (split; [split; intros Hs; discriminate Hs|]);
          intros inv e' [H|[]]; inversion H; subst;
          cbn [status error_message txHash rpcCalls];
          repeat (split; [reflexivity|]); eexists; reflexivity ].

Lemma runAsyncTransaction_failure (clients : TransactionClients) (nonce : Z)
    (arr : ArrayRef) (o : PrefetchOptions.t) (g : option PrefetchedGas.t)
    (st : State) :
  failure_contract async
    (runAsyncTransaction cfg clock clients nonce arr o g) arr st.
Proof.
  unfold failure_contract. destruct st as [tk tr rj sto]. unfold_flow.
  destruct (all_prefetched o g); failure_cases.
Qed.

Lemma runSyncTransaction_failure (clients : TransactionClients) (nonce : Z)
    (arr : ArrayRef) (o : PrefetchOptions.t) (g : option PrefetchedGas.t)
    (st : State) :
  failure_contract sync
    (runSyncTransaction cfg clock clients nonce arr o g) arr st.
Proof.
  unfold failure_contract. destruct st as [tk tr rj sto]. unfold_flow.
  failure_cases.
Qed.

(** C3, amended: in both flows, when an awaited step rejects, the flow
    stops there and returns a result with status [error], the message of
    the thrown [Error] (or "Unknown error" for any other thrown value),
    the call log accumulated so far, and the empty string as hash; this
    also holds when the polling flow had already obtained a hash from
    the submission and the wait for the receipt then fails.  When no step
    rejects the status is [success]. *)
Theorem flows_return_error_result (clients : TransactionClients) (nonce : Z)
    (arr : ArrayRef) (o : PrefetchOptions.t) (g : option PrefetchedGas.t)
    (st : State) :
  failure_contract async (runAsyncTransaction cfg clock clients nonce arr o g) arr st /\
  failure_contract sync (runSyncTransaction cfg clock clients nonce arr o g) arr st /\
  (forall hash e,
     all_prefetched o g = false ->
     settled (sendTransaction (walletClient clients)
                (assemble_txParams cfg nonce o g)) = Fulfilled hash ->
     settled (waitForTransactionReceipt (publicClient clients) hash) = Rejected e ->
     let res := fst (runAsyncTransaction cfg clock clients nonce arr o g st) in
     status res = error /\ txHash res = "" /\
     error_message res = Some (error_text e)).
Proof.
  split; [apply runAsyncTransaction_failure|].
  split; [apply runSyncTransaction_failure|].
  intros hash e Hall Hsend Hwait.
  destruct st as [tk tr rj sto]. unfold_flow.
  rewrite Hall, Hsend, Hwait. cbn [fst status txHash error_message].
  repeat split.
Qed.

(** Every result a flow returns has [duration = endTime - startTime]. *)
Lemma flow_duration_exact (clients : TransactionClients) (nonce : Z)
    (arr : ArrayRef) (o : PrefetchOptions.t) (g : option PrefetchedGas.t)
    (st : State) :
  let a := fst (runAsyncTransaction cfg clock clients nonce arr o g st) in
  let s := fst (runSyncTransaction cfg clock clients nonce arr o g st) in
  duration a = endTime a - startTime a /\
  duration s = endTime s - startTime s.
Proof.
  destruct st as [tk tr rj sto]. unfold_flow.
  split; [destruct (all_prefetched o g)|]; case_settled; reflexivity.
Qed.

(** The end reading of a flow is taken after its start reading. *)
Lemma flow_times_ordered (clients : TransactionClients) (nonce : Z)
    (arr : ArrayRef) (o : PrefetchOptions.t) (g : option PrefetchedGas.t)
    (st : State) :
  let a := fst (runAsyncTransaction cfg clock clients nonce arr o g st) in
  let s := fst (runSyncTransaction cfg clock clients nonce arr o g st) in
  exists i j k : nat,
    (i <= j)%nat /\ (i <= k)%nat /\
    startTime a = clock i /\ endTime a = clock j /\
    startTime s = clock i /\ endTime s = clock k.
Proof.
  destruct st as [tk tr rj sto]. unfold_flow.
  destruct (all_prefetched o g); case_settled;
    cbn [startTime endTime];
    eexists tk, _, _;
    (split; [|split; [|repeat split; reflexivity]]); lia.
Qed.

Lemma flow_duration_nonneg (clients : TransactionClients) (nonce : Z)
    (arr : ArrayRef) (o : PrefetchOptions.t) (g : option PrefetchedGas.t)
    (st : State) :
  non_decreasing clock ->
  0 <= duration (fst (runAsyncTransaction cfg clock clients nonce arr o g st)) /\
  0 <= duration (fst (runSyncTransaction cfg clock clients nonce arr o g st)).
Proof.
  intros Hclock.
  destruct (flow_duration_exact clients nonce arr o g st) as [Da Ds].
  destruct (flow_times_ordered clients nonce arr o g st)
    as (i & j & k & Hij & Hik & Sa & Ea & Ss & Es).
  cbv zeta in Da, Ds, Sa, Ea, Ss, Es.
  rewrite Da, Ds, Sa, Ea, Ss, Es.
  pose proof (Hclock i j Hij). pose proof (Hclock i k Hik). lia.
Qed.

End RunnerFacts.

(** ** The orchestrators *)

Lemma observe_all_silent (evs : list WireEvent) (s : Store) :
  observe_all (mkObservers empty_logger None) evs s = s.
Proof.
  unfold observe_all. revert s.
  induction evs as [|ev evs IH]; intros s; cbn [fold_left]; [reflexivity|].
  assert (observe (mkObservers empty_logger None) ev s = s) as ->
    by (destruct ev; reflexivity).
  apply IH.
Qed.

Lemma store_set_other (a b : ArrayRef) (v : list RPCCallLog) (s : Store) :
  a <> b -> store_set a v s b = s b.
Proof. unfold store_set. destruct a, b; cbn; congruence. Qed.

(** The loggers of one flow write to that flow's array only. *)
Lemma flow_observers_frame (arr other : ArrayRef) (evs : list WireEvent) (s : Store) :
  arr <> other ->
  observe_all (mkObservers (completion_logger arr) (Some (start_logger arr))) evs s other
  = s other.
Proof.
  intros Hne. unfold observe_all. revert s.
  induction evs as [|ev evs IH]; intros s; cbn [fold_left]; [reflexivity|].
  rewrite IH. destruct ev; cbn [observe rpcStartLogger rpcCallLogger].
  - unfold start_logger. now apply store_set_other.
  - unfold completion_logger.
    match goal with |- context [findIndex ?p ?l] => destruct (findIndex p l) end;
      now apply store_set_other.
Qed.

Ltac unfold_setup :=
  cbv [runBenchmark_setup runBenchmark_setup_legacy prefetch_gas new_arrays
       flow_clients createBenchmarkClients all3 all2
       bind date_now await read_array ret ticks trace rejected store
       transport publicClient walletClient account].

Section OrchestratorFacts.
Variable cfg : Config.
Variable clock : nat -> Z.
Variable net : Network.
Variables asyncAccount syncAccount : Account.

(** The gas prefetch, case by case. *)
Lemma prefetch_gas_value (o : PrefetchOptions.t) (st : State) :
  let pc := snd (net prefetchClients) in
  (PrefetchOptions.gasParams o = false ->
     prefetch_gas net asyncAccount o st = (Fulfilled None, st)) /\
  (PrefetchOptions.gasParams o = true ->
     forall block maxPriorityFee gasEstimate,
       settled (getBlock pc) = Fulfilled block ->
       settled (request_maxPriorityFeePerGas pc) = Fulfilled maxPriorityFee ->
       settled (estimateGas pc (address asyncAccount) zeroAddress 0)
         = Fulfilled gasEstimate ->
       exists g,
         fst (prefetch_gas net asyncAccount o st) = Fulfilled (Some g) /\
         PrefetchedGas.maxFeePerGas g =
           match baseFeePerGas block with
           | Some base => base + maxPriorityFee
           | None => maxPriorityFee
           end /\
         PrefetchedGas.maxPriorityFeePerGas g = maxPriorityFee /\
         PrefetchedGas.gas g = gasEstimate).
Proof.
  intros pc. split.
  - intros Hoff. unfold prefetch_gas. rewrite Hoff. reflexivity.
  - intros Hon block p est Hb Hp He. subst pc.
    destruct st as [tk tr rj sto]. unfold_setup.
    rewrite Hon, Hb, Hp, He. cbn [fst].
    eexists; split; [reflexivity|].
    cbn [PrefetchedGas.maxFeePerGas PrefetchedGas.maxPriorityFeePerGas
         PrefetchedGas.gas].
    split; [|split; reflexivity].
    destruct (baseFeePerGas block) as [base|]; [|reflexivity].
    unfold JS.truthy_bigint.
    destruct (Z.eqb_spec base 0) as [->|]; cbn [negb]; lia.
Qed.

(** What either setup hands to the flows. *)
Lemma setup_launch (o : PrefetchOptions.t) (st st' : State) (l : Launch) :
  runBenchmark_setup clock net asyncAccount syncAccount o st = (Fulfilled l, st') \/
  runBenchmark_setup_legacy clock net asyncAccount syncAccount o st
    = (Fulfilled l, st') ->
  (forall s0, fst (prefetch_gas net asyncAccount o s0) = Fulfilled (prefetchedGas l)) /\
  launch_asyncClients l = flow_clients net asyncClients asyncAccount asyncRPCCalls o /\
  launch_syncClients l = flow_clients net syncClients syncAccount syncRPCCalls o /\
  exists calls,
    trace st' = (trace st ++ calls)%list /\
    (PrefetchOptions.gasParams o = false ->
     forall inv, In inv calls -> exists a, inv = Call_getTransactionCount a).
Proof.
  destruct st as [tk tr rj sto].
  intros H; revert H. unfold_setup.
  destruct (PrefetchOptions.gasParams o), (PrefetchOptions.nonce o);
    cbn [negb]; case_settled;
    (intros [H|H]; inversion H; subst; clear H);
    cbn [prefetchedGas launch_asyncClients launch_syncClients];
    (split; [intros s0; reflexivity|]);
    (split; [reflexivity|]); (split; [reflexivity|]);
    rewrite <- ?app_assoc; cbn [app];
    first [ exists []; rewrite app_nil_r; split; [reflexivity|]; intros _ inv []
          | eexists; split; [reflexivity|];
            intros Hg; try discriminate Hg;
            cbn [In]; intros inv Hin;
            repeat (destruct Hin as [Hin|Hin]; [eexists; symmetry; exact Hin|]);
            destruct Hin ].
Qed.

Lemma prefetch_gas_fulfilled (o : PrefetchOptions.t) (st : State)
    (x : option PrefetchedGas.t) :
  PrefetchOptions.gasParams o = true ->
  fst (prefetch_gas net asyncAccount o st) = Fulfilled x ->
  let pc := snd (net prefetchClients) in
  exists block maxPriorityFee gasEstimate,
    settled (getBlock pc) = Fulfilled block /\
    settled (request_maxPriorityFeePerGas pc) = Fulfilled maxPriorityFee /\
    settled (estimateGas pc (address asyncAccount) zeroAddress 0)
      = Fulfilled gasEstimate.
Proof.
  intros Hon. destruct st as [tk tr rj sto]. unfold_setup. rewrite Hon.
  case_settled; intros H; try discriminate H.
  eexists _, _, _. repeat split; reflexivity.
Qed.

(** C6: the prefetched fee cap is the latest block's base fee plus the
    suggested priority fee when the block has a base fee, and the priority
    fee alone when it has none; the prefetched priority fee is the
    suggested one and the prefetched gas limit is the gas estimate; with
    the gas-prefetch flag off nothing is computed and none of the three
    queries is made. *)
Theorem prefetched_gas_fee_cap (o : PrefetchOptions.t) (st st' : State) (l : Launch) :
  runBenchmark_setup clock net asyncAccount syncAccount o st = (Fulfilled l, st') \/
  runBenchmark_setup_legacy clock net asyncAccount syncAccount o st
    = (Fulfilled l, st') ->
  let pc := snd (net prefetchClients) in
  (PrefetchOptions.gasParams o = false ->
     prefetchedGas l = None /\
     exists calls,
       trace st' = (trace st ++ calls)%list /\
       ~ In Call_getBlock calls /\
       ~ In Call_request_maxPriorityFeePerGas calls /\
       (forall a t v, ~ In (Call_estimateGas a t v) calls)) /\
  (PrefetchOptions.gasParams o = true ->
     exists block maxPriorityFee gasEstimate g,
       settled (getBlock pc) = Fulfilled block /\
       settled (request_maxPriorityFeePerGas pc) = Fulfilled maxPriorityFee /\
       settled (estimateGas pc (address asyncAccount) zeroAddress 0)
         = Fulfilled gasEstimate /\
       prefetchedGas l = Some g /\
       PrefetchedGas.maxFeePerGas g =
         match baseFeePerGas block with
         | Some base => base + maxPriorityFee
         | None => maxPriorityFee
         end /\
       PrefetchedGas.maxPriorityFeePerGas g = maxPriorityFee /\
       PrefetchedGas.gas g = gasEstimate).
Proof.
  intros H pc.
  destruct (setup_launch o st st' l H) as (Hgas & _ & _ & calls & Htr & Hcalls).
  split.
  - intros Hoff.
    pose proof (proj1 (prefetch_gas_value o st) Hoff) as Hv.
    specialize (Hgas st). rewrite Hv in Hgas. cbn [fst] in Hgas.
    split; [congruence|].
    exists calls. split; [exact Htr|].
    specialize (Hcalls Hoff).
    repeat split; intros; intros Hin; destruct (Hcalls _ Hin); discriminate.
  - intros Hon.
    destruct (prefetch_gas_fulfilled o st _ Hon (Hgas st))
      as (block & p & est & Hb & Hp & He).
    destruct (proj2 (prefetch_gas_value o st) Hon block p est Hb Hp He)
      as (g & Hg & Hfee & Hprio & Hlim).
    exists block, p, est, g.
    rewrite (Hgas st) in Hg.
    repeat split; try assumption. congruence.
Qed.

(** With gas prefetch off the launch carries no prefetched gas. *)
Lemma gas_prefetch_off_null (o : PrefetchOptions.t) (st st' : State) (l : Launch) :
  PrefetchOptions.gasParams o = false ->
  runBenchmark_setup clock net asyncAccount syncAccount o st = (Fulfilled l, st') \/
  runBenchmark_setup_legacy clock net asyncAccount syncAccount o st
    = (Fulfilled l, st') ->
  prefetchedGas l = None.
Proof.
  intros Hoff H.
  destruct (setup_launch o st st' l H) as (Hgas & _).
  pose proof (proj1 (prefetch_gas_value o st) Hoff) as Hv.
  specialize (Hgas st). rewrite Hv in Hgas. cbn [fst] in Hgas. congruence.
Qed.

(** C9: when gas prefetch is off the orchestrator leaves the prefetched
    gas null, so the polling flow takes the normal path whatever the two
    other flags are: its first call is the standard send and it makes no
    sign and no raw-send call. *)
Theorem gas_prefetch_off_normal_path (o : PrefetchOptions.t) (st st' : State)
    (l : Launch) :
  PrefetchOptions.gasParams o = false ->
  runBenchmark_setup clock net asyncAccount syncAccount o st = (Fulfilled l, st') \/
  runBenchmark_setup_legacy clock net asyncAccount syncAccount o st
    = (Fulfilled l, st') ->
  prefetchedGas l = None /\
  all_prefetched o (prefetchedGas l) = false /\
  exists calls,
    trace (snd (async_side cfg clock l o st')) = (trace st' ++ calls)%list /\
    hd_error calls
      = Some (Call_sendTransaction (assemble_txParams cfg (asyncNonce l) o None)) /\
    (forall r, ~ In (Call_signTransaction r) calls) /\
    (forall s, ~ In (Call_sendRawTransaction s) calls).
Proof.
  intros Hoff H.
  pose proof (gas_prefetch_off_null o st st' l Hoff H) as Hnull.
  split; [exact Hnull|].
  split.
  { rewrite Hnull. unfold all_prefetched. now rewrite !andb_false_r. }
  unfold async_side. rewrite Hnull.
  apply runAsyncTransaction_normal_path.
  unfold all_prefetched. now rewrite !andb_false_r.
Qed.

(** In the orchestrator with the Preparing state no setup query is logged:
    when the flows are invoked both call-log arrays are empty. *)
Lemma setup_leaves_logs_empty (o : PrefetchOptions.t) (st st' : State) (l : Launch) :
  runBenchmark_setup clock net asyncAccount syncAccount o st = (Fulfilled l, st') ->
  store st' asyncRPCCalls = [] /\ store st' syncRPCCalls = [].
Proof.
  destruct st as [tk tr rj sto]. unfold_setup.
  destruct (PrefetchOptions.gasParams o), (PrefetchOptions.nonce o);
    cbn [negb]; case_settled;
    (intros H; inversion H; subst; clear H); cbn [store];
    rewrite ?observe_all_silent; split; reflexivity.
Qed.

(** The polling flow run through the async clients leaves the other
    flow's array as it is. *)
Lemma async_flow_keeps_sync_log (o : PrefetchOptions.t)
    (g : option PrefetchedGas.t) (nonce : Z) (st : State) :
  store (snd (runAsyncTransaction cfg clock
                (flow_clients net asyncClients asyncAccount asyncRPCCalls o)
                nonce asyncRPCCalls o g st)) syncRPCCalls
  = store st syncRPCCalls.
Proof.
  destruct st as [tk tr rj sto].
  cbv [flow_clients createBenchmarkClients].
  unfold_flow. cbv [transport].
  destruct (all_prefetched o g); case_settled; cbn [store];
    rewrite ?flow_observers_frame by discriminate; reflexivity.
Qed.

(** The orchestrator with the Preparing state publishes each flow's
    result as the flow returned it, so the published result has
    [duration = endTime - startTime], non-negative under a clock that
    does not run backwards. *)
Lemma published_duration_exact (o : PrefetchOptions.t) (st st' : State)
    (res : BenchmarkResult) :
  runBenchmark_async cfg clock net asyncAccount syncAccount o st = (Fulfilled res, st') \/
  runBenchmark_sync cfg clock net asyncAccount syncAccount o st = (Fulfilled res, st') ->
  duration res = endTime res - startTime res /\
  (non_decreasing clock -> 0 <= duration res).
Proof.
  unfold runBenchmark_async, runBenchmark_sync, bind, lift, publish,
    async_side, sync_side.
  destruct (runBenchmark_setup clock net asyncAccount syncAccount o st)
    as [[l|e] st1]; [|intros [H|H]; discriminate H].
  intros [H|H].
  - pose proof (flow_duration_exact cfg clock (launch_asyncClients l)
                  (asyncNonce l) asyncRPCCalls o (prefetchedGas l) st1) as [D _].
    pose proof (fun M => proj1 (flow_duration_nonneg cfg clock
                  (launch_asyncClients l) (asyncNonce l) asyncRPCCalls o
                  (prefetchedGas l) st1 M)) as N.
    destruct (runAsyncTransaction cfg clock (launch_asyncClients l)
                (asyncNonce l) asyncRPCCalls o (prefetchedGas l) st1) as [r st2].
    inversion H; subst. cbn [fst] in D, N. split; assumption.
  - pose proof (flow_duration_exact cfg clock (launch_syncClients l)
                  (syncNonce l) syncRPCCalls o (prefetchedGas l) st1) as [_ D].
    pose proof (fun M => proj2 (flow_duration_nonneg cfg clock
                  (launch_syncClients l) (syncNonce l) syncRPCCalls o
                  (prefetchedGas l) st1 M)) as N.
    destruct (runSyncTransaction cfg clock (launch_syncClients l)
                (syncNonce l) syncRPCCalls o (prefetchedGas l) st1) as [r st2].
    inversion H; subst. cbn [fst] in D, N. split; assumption.
Qed.

End OrchestratorFacts.

(** ** Runs on the sample network *)

(** C4: the orchestrator without the Preparing state republishes the
    polling flow's result with [duration] replaced by the time since its
    own start reading; with all prefetch flags off on the sample network
    the published result has [startTime = 1020], [endTime = 1090] and
    [duration = 100], so [duration = endTime - startTime] does not hold for
    it (the duration is still non-negative). *)
Theorem legacy_published_duration_differs :
  exists res,
    fst (runBenchmark_legacy_async Sample.cfg Sample.clock Sample.net
           Sample.asyncAccount Sample.syncAccount Sample.none_prefetched
           initial_state) = Fulfilled res /\
    startTime res = 1020 /\ endTime res = 1090 /\ duration res = 100 /\
    duration res <> endTime res - startTime res /\
    0 <= duration res.
Proof.
  eexists. split; [vm_compute; reflexivity|].
  cbn [startTime endTime duration]. repeat split; try reflexivity; lia.
Qed.

(** C5: in the orchestrator without the Preparing state, with nonce
    prefetch off, the starting transaction counts are fetched through the
    flows' own clients, so each flow's call-log array already holds the
    [eth_getTransactionCount] entry when the flows are invoked. *)
Theorem legacy_setup_logs_nonce_queries :
  let st' := snd (runBenchmark_setup_legacy Sample.clock Sample.net
                    Sample.asyncAccount Sample.syncAccount Sample.none_prefetched
                    initial_state) in
  store st' asyncRPCCalls = [mkRPCCallLog "eth_getTransactionCount" 5 12 7 false] /\
  store st' syncRPCCalls = [mkRPCCallLog "eth_getTransactionCount" 5 12 7 false] /\
  store st' asyncRPCCalls <> [] /\ store st' syncRPCCalls <> [].
Proof.
  cbv zeta. repeat split; try (vm_compute; reflexivity); vm_compute; discriminate.
Qed.

Lemma prefetched_gas_fee_cap_witness :
  exists block maxPriorityFee gasEstimate g,
    settled (getBlock (snd (Sample.net prefetchClients))) = Fulfilled block /\
    settled (request_maxPriorityFeePerGas (snd (Sample.net prefetchClients)))
      = Fulfilled maxPriorityFee /\
    settled (estimateGas (snd (Sample.net prefetchClients))
               (address Sample.asyncAccount) zeroAddress 0) = Fulfilled gasEstimate /\
    prefetchedGas (Sample.launch Sample.everything_prefetched) = Some g /\
    PrefetchedGas.maxFeePerGas g =
      match baseFeePerGas block with
      | Some base => base + maxPriorityFee
      | None => maxPriorityFee
      end /\
    PrefetchedGas.maxPriorityFeePerGas g = maxPriorityFee /\
    PrefetchedGas.gas g = gasEstimate.
Proof.
  exact (proj2 (prefetched_gas_fee_cap Sample.clock Sample.net
                  Sample.asyncAccount Sample.syncAccount
                  Sample.everything_prefetched initial_state
                  (snd (runBenchmark_setup Sample.clock Sample.net
                          Sample.asyncAccount Sample.syncAccount
                          Sample.everything_prefetched initial_state))
                  (Sample.launch Sample.everything_prefetched)
                  (or_introl eq_refl))
               eq_refl).
Defined.

Lemma gas_prefetch_off_normal_path_witness :
  prefetchedGas (Sample.launch Sample.gas_not_prefetched) = None /\
  all_prefetched Sample.gas_not_prefetched
    (prefetchedGas (Sample.launch Sample.gas_not_prefetched)) = false.
Proof.
  pose proof (gas_prefetch_off_normal_path Sample.cfg Sample.clock Sample.net
                Sample.asyncAccount Sample.syncAccount
                Sample.gas_not_prefetched initial_state
                (snd (runBenchmark_setup Sample.clock Sample.net
                        Sample.asyncAccount Sample.syncAccount
                        Sample.gas_not_prefetched initial_state))
                (Sample.launch Sample.gas_not_prefetched)
                eq_refl (or_introl eq_refl)) as (H1 & H2 & _).
  split; [exact H1 | exact H2].
Defined.

(* ================================================================== *)
(** * Further properties of the code *)

(** ** List lemmas for the loggers *)

Lemma store_set_same (a : ArrayRef) (v : list RPCCallLog) (s : Store) :
  store_set a v s a = v.
Proof. unfold store_set. destruct a; reflexivity. Qed.

Lemma findIndex_Some {A} (p : A -> bool) (l : list A) (i : nat) :
  findIndex p l = Some i ->
  exists x, nth_error l i = Some x /\ p x = true.
Proof.
  revert i. induction l as [|y l IH]; intros i; cbn [findIndex].
  - discriminate.
  - destruct (p y) eqn:Py.
    + intros H; inversion H; subst. exists y. split; [reflexivity | exact Py].
    + destruct (findIndex p l) as [j|]; cbn [option_map]; intros H;
        inversion H; subst. cbn [nth_error]. now apply IH.
Qed.

Lemma findIndex_None {A} (p : A -> bool) (l : list A) :
  findIndex p l = None -> filter p l = [].
Proof.
  induction l as [|y l IH]; cbn [findIndex filter]; [reflexivity|].
  destruct (p y); [discriminate|].
  destruct (findIndex p l); cbn [option_map]; [discriminate|]. exact IH.
Qed.

Lemma assign_at_length {A} (i : nat) (x : A) (l : list A) :
  List.length (assign_at i x l) = List.length l.
Proof.
  revert i. induction l as [|y l IH]; intros [|i]; cbn; try reflexivity.
  now rewrite IH.
Qed.

Lemma nth_error_assign_at_other {A} (i j : nat) (x : A) (l : list A) :
  i <> j -> nth_error (assign_at i x l) j = nth_error l j.
Proof.
  revert i j. induction l as [|y l IH]; intros [|i] [|j] H; cbn;
    try reflexivity; try congruence.
  apply IH. congruence.
Qed.

Lemma nth_error_assign_at_same {A} (i : nat) (x y : A) (l : list A) :
  nth_error l i = Some y -> nth_error (assign_at i x l) i = Some x.
Proof.
  revert i. induction l as [|z l IH]; intros [|i]; cbn; try discriminate.
  - reflexivity.
  - apply IH.
Qed.

Lemma filter_assign_at {A} (q : A -> bool) (i : nat) (x y : A) (l : list A) :
  nth_error l i = Some y ->
  (List.length (filter q (assign_at i x l)) + (if q y then 1 else 0)
   = List.length (filter q l) + (if q x then 1 else 0))%nat.
Proof.
  revert i. induction l as [|z l IH]; intros [|i]; cbn [nth_error assign_at filter];
    try discriminate.
  - intros H; inversion H; subst. destruct (q x), (q y); cbn [List.length]; lia.
  - intros H. specialize (IH i H). destruct (q z); cbn [List.length]; lia.
Qed.

Lemma Forall_assign_at {A} (P : A -> Prop) (i : nat) (x : A) (l : list A) :
  P x -> Forall P l -> Forall P (assign_at i x l).
Proof.
  intros Px. revert i. induction l as [|y l IH]; intros [|i] H; cbn;
    try constructor; inversion H; subst; auto.
Qed.

(** One event, seen from the array the observers log into. *)
Lemma observe_flow_array (arr : ArrayRef) (ev : WireEvent) (s : Store) :
  observe (flow_observers arr) ev s arr =
  match ev with
  | CallStarted m t => (s arr ++ [mkRPCCallLog m t 0 0 true])%list
  | CallCompleted m t e =>
      match findIndex (same_call m t) (s arr) with
      | Some i => assign_at i (mkRPCCallLog m t e (e - t) false) (s arr)
      | None => (s arr ++ [mkRPCCallLog m t e (e - t) false])%list
      end
  end.
Proof.
  destruct ev as [m t|m t e]; cbn [observe flow_observers rpcStartLogger rpcCallLogger].
  - unfold start_logger. apply store_set_same.
  - unfold completion_logger. cbn [method call_startTime call_endTime call_duration].
    change (fun call : RPCCallLog =>
              (String.eqb (method call) m && isPending call
               && (call_startTime call =? t))%bool) with (same_call m t).
    destruct (findIndex (same_call m t) (s arr)); apply store_set_same.
Qed.

Lemma observe_all_cons (o : Observers) (ev : WireEvent) (evs : list WireEvent)
    (s : Store) :
  observe_all o (ev :: evs) s = observe_all o evs (observe o ev s).
Proof. reflexivity. Qed.

(** ** The call log kept by a flow's loggers *)

Lemma same_call_key (m t' : string) (t t0 : Z) (y : RPCCallLog) :
  same_call m t y = true ->
  same_call t' t0 y = (String.eqb m t' && (t =? t0))%bool.
Proof.
  unfold same_call. intros H.
  apply andb_prop in H as [H Ht]. apply andb_prop in H as [Hm Hp].
  apply String.eqb_eq in Hm. apply Z.eqb_eq in Ht. subst.
  rewrite Hp. now rewrite andb_true_r.
Qed.

Lemma pending_count_app (m : string) (t : Z) (l1 l2 : list RPCCallLog) :
  pending_count m t (l1 ++ l2) = (pending_count m t l1 + pending_count m t l2)%nat.
Proof. unfold pending_count. now rewrite filter_app, length_app. Qed.

(** One event moves the counts as a call starting or completing should,
    provided a completion finds its pending entry. *)
Lemma observe_step_counts (arr : ArrayRef) (ev : WireEvent) (s : Store) :
  (forall m t, is_completion m t ev = true -> (1 <= pending_count m t (s arr))%nat) ->
  List.length (observe (flow_observers arr) ev s arr)
    = (List.length (s arr) + started_calls [ev])%nat /\
  forall m t,
    (pending_count m t (observe (flow_observers arr) ev s arr) + completions m t [ev]
     = pending_count m t (s arr) + starts m t [ev])%nat.
Proof.
  intros Hfound. rewrite observe_flow_array.
  destruct ev as [m0 t0|m0 t0 e].
  - split.
    + rewrite length_app. reflexivity.
    + intros m t. rewrite pending_count_app.
      unfold pending_count at 2, completions, starts, same_call.
      cbn [filter is_start is_completion method isPending call_startTime].
      rewrite andb_true_r.
      destruct (String.eqb m0 m && (t0 =? t))%bool; cbn [List.length]; lia.
  - assert (Hone : (1 <= pending_count m0 t0 (s arr))%nat).
    { apply Hfound. cbn [is_completion].
      now rewrite String.eqb_refl, Z.eqb_refl. }
    destruct (findIndex (same_call m0 t0) (s arr)) as [i|] eqn:Ei.
    2:{ apply findIndex_None in Ei. unfold pending_count in Hone.
        rewrite Ei in Hone. cbn in Hone. lia. }
    destruct (findIndex_Some _ _ _ Ei) as (y & Hy & Py).
    split.
    + rewrite assign_at_length. cbn. lia.
    + intros m t.
      pose proof (filter_assign_at (same_call m t) i
                    (mkRPCCallLog m0 t0 e (e - t0) false) y (s arr) Hy) as Hc.
      rewrite (same_call_key m0 m t0 t y Py) in Hc.
      unfold pending_count, completions, starts.
      cbn [filter is_start is_completion].
      replace (same_call m t (mkRPCCallLog m0 t0 e (e - t0) false)) with false in Hc
        by (unfold same_call; cbn; now rewrite andb_false_r).
      destruct (String.eqb m0 m && (t0 =? t))%bool; cbn [List.length] in *; lia.
Qed.

Lemma counts_cons (m : string) (t : Z) (ev : WireEvent) (evs : list WireEvent) :
  starts m t (ev :: evs) = (starts m t [ev] + starts m t evs)%nat /\
  completions m t (ev :: evs) = (completions m t [ev] + completions m t evs)%nat /\
  started_calls (ev :: evs) = (started_calls [ev] + started_calls evs)%nat.
Proof.
  unfold starts, completions, started_calls. cbn [filter].
  destruct ev; cbn [is_start is_completion];
    repeat match goal with |- context [if ?b then _ else _] => destruct b end;
    cbn [List.length]; lia.
Qed.

Lemma no_pending_entries (l : list RPCCallLog) :
  (forall m t, pending_count m t l = 0%nat) ->
  Forall (fun e => isPending e = false) l.
Proof.
  intros H. apply Forall_forall. intros e He.
  destruct (isPending e) eqn:P; [|reflexivity].
  specialize (H (method e) (call_startTime e)). unfold pending_count in H.
  assert (Hin : In e (filter (same_call (method e) (call_startTime e)) l)).
  { apply filter_In. split; [exact He|]. unfold same_call.
    now rewrite String.eqb_refl, P, Z.eqb_refl. }
  destruct (filter (same_call (method e) (call_startTime e)) l);
    [destruct Hin | discriminate H].
Qed.

Lemma logged_calls_counts (arr : ArrayRef) (evs : list WireEvent) (s : Store) :
  completions_follow_starts (s arr) evs ->
  List.length (observe_all (flow_observers arr) evs s arr)
    = (List.length (s arr) + started_calls evs)%nat /\
  forall m t,
    (pending_count m t (observe_all (flow_observers arr) evs s arr)
     + completions m t evs
     = pending_count m t (s arr) + starts m t evs)%nat.
Proof.
  revert s. induction evs as [|ev evs IH]; intros s Hwf.
  - unfold observe_all, started_calls, completions, starts.
    cbn [fold_left filter List.length]. split; intros; lia.
  - rewrite observe_all_cons.
    assert (Hstep : forall m t, is_completion m t ev = true ->
                                (1 <= pending_count m t (s arr))%nat).
    { intros m t Hc. specialize (Hwf 1%nat m t). cbn [firstn] in Hwf.
      unfold completions, starts in Hwf. cbn [filter] in Hwf. rewrite Hc in Hwf.
      destruct ev; cbn [is_completion is_start] in *; [discriminate|].
      cbn [List.length] in Hwf. lia. }
    destruct (observe_step_counts arr ev s Hstep) as [Hlen Hcnt].
    assert (Hwf' : completions_follow_starts
                     (observe (flow_observers arr) ev s arr) evs).
    { intros n m t. specialize (Hwf (S n) m t). cbn [firstn] in Hwf.
      destruct (counts_cons m t ev (firstn n evs)) as (Hs & Hc & _).
      rewrite Hs, Hc in Hwf. specialize (Hcnt m t). lia. }
    destruct (IH _ Hwf') as [IHlen IHcnt].
    destruct (counts_cons EmptyString 0 ev evs) as (_ & _ & Hst).
    split; [rewrite IHlen, Hlen, Hst; lia|].
    intros m t. specialize (IHcnt m t). specialize (Hcnt m t).
    destruct (counts_cons m t ev evs) as (Hs & Hc & _). lia.
Qed.

(** X1: when every completion event follows a start event of its own, the
    flow's loggers keep one entry per started call: the array grows by the
    number of calls started, the number of pending entries of each call is
    the number of its starts not yet completed, and once every started call
    has completed no entry is pending. *)
Theorem call_log_one_entry_per_call (arr : ArrayRef) (evs : list WireEvent)
    (s : Store) :
  completions_follow_starts (s arr) evs ->
  let log := observe_all (flow_observers arr) evs s arr in
  List.length log = (List.length (s arr) + started_calls evs)%nat /\
  (forall m t,
     (pending_count m t log + completions m t evs
      = pending_count m t (s arr) + starts m t evs)%nat) /\
  ((forall m t, pending_count m t (s arr) = 0%nat) ->
   (forall m t, starts m t evs = completions m t evs) ->
   Forall (fun e => isPending e = false) log).
Proof.
  intros Hwf log.
  destruct (logged_calls_counts arr evs s Hwf) as [Hlen Hcnt].
  split; [exact Hlen|]. split; [exact Hcnt|].
  intros Hnone Hall. apply no_pending_entries. intros m t.
  specialize (Hcnt m t). specialize (Hnone m t). specialize (Hall m t).
  subst log. lia.
Qed.

Lemma call_log_one_entry_per_call_witness :
  List.length (observe_all (flow_observers asyncRPCCalls)
                 [CallStarted "eth_chainId" 1; CallCompleted "eth_chainId" 1 5]
                 empty_store asyncRPCCalls) = 1%nat.
Proof.
  refine (proj1 (call_log_one_entry_per_call asyncRPCCalls
                   [CallStarted "eth_chainId" 1; CallCompleted "eth_chainId" 1 5]
                   empty_store _)).
  intros n m t. unfold completions, starts, pending_count.
  destruct n as [|[|[|n]]]; cbn [firstn filter is_start is_completion empty_store];
    destruct (String.eqb "eth_chainId" m), (1 =? t); cbn; lia.
Defined.

Lemma observe_keeps_completed (arr : ArrayRef) (ev : WireEvent) (s : Store)
    (i : nat) (e : RPCCallLog) :
  nth_error (s arr) i = Some e -> isPending e = false ->
  nth_error (observe (flow_observers arr) ev s arr) i = Some e.
Proof.
  intros Hi He. rewrite observe_flow_array.
  assert (Hlt : (i < List.length (s arr))%nat)
    by (apply nth_error_Some; congruence).
  destruct ev as [m t|m t e'].
  - rewrite nth_error_app1 by exact Hlt. exact Hi.
  - destruct (findIndex (same_call m t) (s arr)) as [j|] eqn:Ej.
    + destruct (findIndex_Some _ _ _ Ej) as (y & Hy & Py).
      rewrite nth_error_assign_at_other; [exact Hi|].
      intros ->. rewrite Hi in Hy. inversion Hy; subst.
      unfold same_call in Py. rewrite He in Py.
      rewrite andb_false_r in Py. discriminate Py.
    + rewrite nth_error_app1 by exact Hlt. exact Hi.
Qed.

(** X2: a completed entry is final: whatever events follow, it stays at its
    index with its content, and the array never shrinks. *)
Theorem completed_entries_stable (arr : ArrayRef) (evs : list WireEvent)
    (s : Store) (i : nat) (e : RPCCallLog) :
  nth_error (s arr) i = Some e -> isPending e = false ->
  nth_error (observe_all (flow_observers arr) evs s arr) i = Some e /\
  (List.length (s arr) <= List.length (observe_all (flow_observers arr) evs s arr))%nat.
Proof.
  revert s. induction evs as [|ev evs IH]; intros s Hi He.
  - split; [exact Hi | apply Nat.le_refl].
  - rewrite observe_all_cons.
    destruct (IH _ (observe_keeps_completed arr ev s i e Hi He) He) as [Hn Hl].
    split; [exact Hn|].
    eapply Nat.le_trans; [|exact Hl].
    rewrite observe_flow_array.
    destruct ev as [m t|m t e'].
    + rewrite length_app. lia.
    + destruct (findIndex (same_call m t) (s arr)).
      * rewrite assign_at_length. lia.
      * rewrite length_app. lia.
Qed.

Lemma completed_entries_stable_witness :
  nth_error (observe_all (flow_observers asyncRPCCalls)
               [CallStarted "eth_call" 3; CallCompleted "eth_call" 3 8]
               (store_set asyncRPCCalls [mkRPCCallLog "eth_call" 3 4 1 false]
                  empty_store)
               asyncRPCCalls) 0
  = Some (mkRPCCallLog "eth_call" 3 4 1 false).
Proof.
  apply (proj1 (completed_entries_stable asyncRPCCalls
                  [CallStarted "eth_call" 3; CallCompleted "eth_call" 3 8]
                  (store_set asyncRPCCalls [mkRPCCallLog "eth_call" 3 4 1 false]
                     empty_store)
                  0 (mkRPCCallLog "eth_call" 3 4 1 false) eq_refl eq_refl)).
Defined.

(** X3: the loggers keep every entry well formed: a pending entry has end
    time 0 and duration 0, a completed entry has duration = end - start. *)
Theorem call_log_entries_ok (arr : ArrayRef) (evs : list WireEvent) (s : Store) :
  Forall entry_ok (s arr) ->
  Forall entry_ok (observe_all (flow_observers arr) evs s arr).
Proof.
  revert s. induction evs as [|ev evs IH]; intros s H; [exact H|].
  rewrite observe_all_cons. apply IH. rewrite observe_flow_array.
  destruct ev as [m t|m t e].
  - apply Forall_app. split; [exact H|].
    constructor; [|constructor]. unfold entry_ok. cbn. split; reflexivity.
  - assert (Hdone : entry_ok (mkRPCCallLog m t e (e - t) false))
      by (unfold entry_ok; reflexivity).
    destruct (findIndex (same_call m t) (s arr)).
    + now apply Forall_assign_at.
    + apply Forall_app. split; [exact H|]. constructor; [exact Hdone|constructor].
Qed.

Lemma call_log_entries_ok_witness :
  Forall entry_ok
    (observe_all (flow_observers syncRPCCalls)
       [CallStarted "eth_chainId" 1; CallStarted "eth_gasPrice" 2;
        CallCompleted "eth_chainId" 1 5]
       empty_store syncRPCCalls).
Proof.
  apply (call_log_entries_ok syncRPCCalls
           [CallStarted "eth_chainId" 1; CallStarted "eth_gasPrice" 2;
            CallCompleted "eth_chainId" 1 5]
           empty_store).
  constructor.
Defined.

Lemma findIndex_first {A} (p : A -> bool) (l1 l2 : list A) (x : A) :
  filter p l1 = [] -> p x = true ->
  findIndex p (l1 ++ x :: l2) = Some (List.length l1).
Proof.
  intros H Px. induction l1 as [|y l1 IH]; cbn [app findIndex List.length].
  - now rewrite Px.
  - cbn [filter] in H. destruct (p y); [discriminate|].
    now rewrite (IH H).
Qed.

Lemma assign_at_middle {A} (l1 l2 : list A) (x y : A) :
  assign_at (List.length l1) y (l1 ++ x :: l2) = (l1 ++ y :: l2)%list.
Proof. induction l1 as [|z l1 IH]; cbn; [reflexivity | now rewrite IH]. Qed.

(** X4: a completion is written over the first pending entry with its
    method and start time, wherever later entries with the same key are;
    with no such entry it is appended. *)
Theorem completion_updates_first_pending (arr : ArrayRef) (s : Store)
    (m : string) (t e : Z) (l1 l2 : list RPCCallLog) (p : RPCCallLog) :
  pending_count m t l1 = 0%nat ->
  let done := mkRPCCallLog m t e (e - t) false in
  (s arr = (l1 ++ p :: l2)%list -> same_call m t p = true ->
   observe (flow_observers arr) (CallCompleted m t e) s arr = (l1 ++ done :: l2)%list) /\
  (s arr = l1 ->
   observe (flow_observers arr) (CallCompleted m t e) s arr = (l1 ++ [done])%list).
Proof.
  intros Hnone done.
  assert (Hf : filter (same_call m t) l1 = []).
  { unfold pending_count in Hnone.
    destruct (filter (same_call m t) l1); [reflexivity | discriminate Hnone]. }
  split.
  - intros Hs Hp. rewrite observe_flow_array, Hs.
    rewrite (findIndex_first _ l1 l2 p Hf Hp). apply assign_at_middle.
  - intros Hs. rewrite observe_flow_array, Hs.
    destruct (findIndex (same_call m t) l1) as [i|] eqn:Ei; [|reflexivity].
    destruct (findIndex_Some _ _ _ Ei) as (y & Hy & Py).
    apply nth_error_In in Hy.
    assert (Hin : In y (filter (same_call m t) l1))
      by (apply filter_In; split; assumption).
    rewrite Hf in Hin. destruct Hin.
Qed.

Lemma completion_updates_first_pending_witness :
  observe (flow_observers asyncRPCCalls) (CallCompleted "eth_call" 7 9)
    (store_set asyncRPCCalls
       [mkRPCCallLog "eth_call" 7 0 0 true; mkRPCCallLog "eth_call" 7 0 0 true]
       empty_store) asyncRPCCalls
  = [mkRPCCallLog "eth_call" 7 9 2 false; mkRPCCallLog "eth_call" 7 0 0 true].
Proof.
  apply (proj1 (completion_updates_first_pending asyncRPCCalls
                  (store_set asyncRPCCalls
                     [mkRPCCallLog "eth_call" 7 0 0 true;
                      mkRPCCallLog "eth_call" 7 0 0 true] empty_store)
                  "eth_call" 7 9 [] [mkRPCCallLog "eth_call" 7 0 0 true]
                  (mkRPCCallLog "eth_call" 7 0 0 true) eq_refl)
               eq_refl eq_refl).
Defined.

Section FlowFrames.
Variable cfg : Config.
Variable clock : nat -> Z.
Variable net : Network.
Variables asyncAccount syncAccount : Account.

Lemma sync_flow_keeps_async_log (o : PrefetchOptions.t)
    (g : option PrefetchedGas.t) (nonce : Z) (st : State) :
  store (snd (runSyncTransaction cfg clock
                (flow_clients net syncClients syncAccount syncRPCCalls o)
                nonce syncRPCCalls o g st)) asyncRPCCalls
  = store st asyncRPCCalls.
Proof.
  destruct st as [tk tr rj sto].
  cbv [flow_clients createBenchmarkClients].
  unfold_flow. cbv [transport].
  case_settled; cbn [store];
    rewrite ?flow_observers_frame by discriminate; reflexivity.
Qed.

(** X5: a failure or any other activity in one flow never touches the other
    flow's call log: the polling flow run through the async clients leaves
    [syncRPCCalls] as it is, and the synchronous flow run through the sync
    clients leaves [asyncRPCCalls] as it is. *)
Theorem flows_log_separately (o : PrefetchOptions.t) (g : option PrefetchedGas.t)
    (na ns : Z) (st : State) :
  store (snd (runAsyncTransaction cfg clock
                (flow_clients net asyncClients asyncAccount asyncRPCCalls o)
                na asyncRPCCalls o g st)) syncRPCCalls
  = store st syncRPCCalls /\
  store (snd (runSyncTransaction cfg clock
                (flow_clients net syncClients syncAccount syncRPCCalls o)
                ns syncRPCCalls o g st)) asyncRPCCalls
  = store st asyncRPCCalls.
Proof.
  split.
  - apply async_flow_keeps_sync_log.
  - apply sync_flow_keeps_async_log.
Qed.

End FlowFrames.

(** ** More on the two flows *)

Section RunnerExtras.
Variable cfg : Config.
Variable clock : nat -> Z.

(** X6: the polling flow succeeds exactly when its submission (sign and
    raw-send on the fast path, the standard send otherwise) yields a hash
    and the wait for the receipt of that hash fulfils: whenever they do,
    the result is a success carrying that hash and no error message, and
    the last call made is the wait for the receipt of that same hash;
    and a success is only returned that way. *)
Theorem runAsyncTransaction_success
    (clients : TransactionClients) (nonce : Z) (arr : ArrayRef)
    (o : PrefetchOptions.t) (g : option PrefetchedGas.t) (st : State) :
  let txParams := assemble_txParams cfg nonce o g in
  let requestToSign :=
    TransactionParams.set_from_chainId (address (account clients))
      (abstractTestnet_id cfg) txParams in
  let run := runAsyncTransaction cfg clock clients nonce arr o g st in
  let submitted (hash : string) :=
    if all_prefetched o g
    then exists ser,
           settled (signTransaction (walletClient clients) requestToSign)
             = Fulfilled ser /\
           settled (sendRawTransaction (publicClient clients) ser) = Fulfilled hash
    else settled (sendTransaction (walletClient clients) txParams) = Fulfilled hash in
  (forall hash receipt,
     submitted hash ->
     settled (waitForTransactionReceipt (publicClient clients) hash)
       = Fulfilled receipt ->
     status (fst run) = success /\
     txHash (fst run) = hash /\
     error_message (fst run) = None /\
     exists before,
       trace (snd run) = (before ++ [Call_waitForTransactionReceipt hash])%list) /\
  (status (fst run) = success ->
   exists hash receipt,
     submitted hash /\
     settled (waitForTransactionReceipt (publicClient clients) hash)
       = Fulfilled receipt /\
     txHash (fst run) = hash) /\
  (forall hash e,
     submitted hash ->
     settled (waitForTransactionReceipt (publicClient clients) hash) = Rejected e ->
     status (fst run) = error).
Proof.
  intros txParams requestToSign run submitted. subst run submitted.
  destruct st as [tk tr rj sto]. unfold_flow.
  fold txParams. fold requestToSign.
  destruct (all_prefetched o g).
  - destruct (settled (signTransaction (walletClient clients) requestToSign))
      as [ser|e1] eqn:E1.
    2:{ cbn [fst snd status].
        split; [intros h r (s' & H1 & _); discriminate H1|].
        split; [intros H; discriminate H|].
        intros h e (s' & H1 & _); discriminate H1. }
    destruct (settled (sendRawTransaction (publicClient clients) ser))
      as [hash|e2] eqn:E2.
    2:{ cbn [fst snd status].
        split; [intros h r (s' & H1 & H2); inversion H1; subst s';
                rewrite E2 in H2; discriminate H2|].
        split; [intros H; discriminate H|].
        intros h e (s' & H1 & H2); inversion H1; subst s';
          rewrite E2 in H2; discriminate H2. }
    destruct (settled (waitForTransactionReceipt (publicClient clients) hash))
      as [receipt|e3] eqn:E3; cbn [fst snd status txHash error_message].
    + split.
      { intros h r (s' & H1 & H2) _. inversion H1; subst s'.
        rewrite E2 in H2. inversion H2; subst h.
        repeat split. eexists; reflexivity. }
      split.
      { intros _. exists hash, receipt.
        split; [exists ser; split; [reflexivity | exact E2]|].
        split; [exact E3 | reflexivity]. }
      intros h e (s' & H1 & H2) H3. inversion H1; subst s'.
      rewrite E2 in H2. inversion H2; subst h. rewrite E3 in H3. discriminate H3.
    + split.
      { intros h r (s' & H1 & H2) H3. inversion H1; subst s'.
        rewrite E2 in H2. inversion H2; subst h. rewrite E3 in H3. discriminate H3. }
      split; [intros H; discriminate H|].
      intros; reflexivity.
  - destruct (settled (sendTransaction (walletClient clients) txParams))
      as [hash|e1] eqn:E1.
    2:{ cbn [fst snd status].
        split; [intros h r H1; discriminate H1|].
        split; [intros H; discriminate H|].
        intros h e H1; discriminate H1. }
    destruct (settled (waitForTransactionReceipt (publicClient clients) hash))
      as [receipt|e3] eqn:E3; cbn [fst snd status txHash error_message].
    + split.
      { intros h r H1 _. inversion H1; subst h.
        repeat split. eexists; reflexivity. }
      split.
      { intros _. exists hash, receipt.
        split; [reflexivity|]. split; [exact E3 | reflexivity]. }
      intros h e H1 H3. inversion H1; subst h. rewrite E3 in H3. discriminate H3.
    + split.
      { intros h r H1 H3. inversion H1; subst h. rewrite E3 in H3. discriminate H3. }
      split; [intros H; discriminate H|].
      intros; reflexivity.
Qed.

End RunnerExtras.


(** ** The two copies of the runner *)

Ltac unfold_older :=
  cbv [OlderRunner.runAsyncTransaction OlderRunner.runSyncTransaction
       runAsyncTransaction runSyncTransaction error_result try_catch
       bind date_now await read_array ret ticks trace rejected store].

(** X8: the two copies of the runner agree on everything but the clock:
    for the same clients, arguments and state, both copies of each flow make
    the same client calls, record the same rejections, leave the same call
    logs and return results with the same type, start time, hash, status,
    error message and call log; and in both the duration is the end time
    minus the start time. *)
Theorem runner_copies_agree (cfg : Config) (clock : nat -> Z)
    (clients : TransactionClients) (nonce : Z) (arr : ArrayRef)
    (o : PrefetchOptions.t) (g : option PrefetchedGas.t) (st : State) :
  let agree (new old : BenchmarkResult * State) :=
    trace (snd new) = trace (snd old) /\
    rejected (snd new) = rejected (snd old) /\
    store (snd new) = store (snd old) /\
    type (fst new) = type (fst old) /\
    startTime (fst new) = startTime (fst old) /\
    txHash (fst new) = txHash (fst old) /\
    status (fst new) = status (fst old) /\
    error_message (fst new) = error_message (fst old) /\
    rpcCalls (fst new) = rpcCalls (fst old) /\
    duration (fst old) = endTime (fst old) - startTime (fst old) /\
    (ticks (snd old) <= ticks (snd new))%nat in
  agree (runAsyncTransaction cfg clock clients nonce arr o g st)
        (OlderRunner.runAsyncTransaction cfg clock clients nonce arr o g st) /\
  agree (runSyncTransaction cfg clock clients nonce arr o g st)
        (OlderRunner.runSyncTransaction cfg clock clients nonce arr o g st).
Proof.
  cbv zeta. destruct st as [tk tr rj sto]. unfold_older.
  split; [destruct (all_prefetched o g)|]; case_settled;
    cbn [trace rejected store ticks type startTime endTime duration txHash
         status error_message rpcCalls];
    repeat split; try reflexivity; lia.
Qed.

(** ** More on the orchestrators *)

Section OrchestratorExtras.
Variable cfg : Config.
Variable clock : nat -> Z.
Variable net : Network.
Variables asyncAccount syncAccount : Account.

(** X9: with nonce prefetch on, both orchestrators start both flows at
    nonce 0 without asking the network; with nonce prefetch off each flow
    gets the transaction count the network reports for its own account,
    asked through the temporary clients in the orchestrator with the
    Preparing state and through the flows' own clients in the older one. *)
Theorem setup_nonces (legacy : bool) (o : PrefetchOptions.t) (st st' : State)
    (l : Launch) :
  (if legacy
   then runBenchmark_setup_legacy clock net asyncAccount syncAccount o st
   else runBenchmark_setup clock net asyncAccount syncAccount o st)
  = (Fulfilled l, st') ->
  let ca := if legacy then asyncClients else tempAsyncClient in
  let cs := if legacy then syncClients else tempSyncClient in
  exists calls,
    trace st' = (trace st ++ calls)%list /\
    (PrefetchOptions.nonce o = true ->
       asyncNonce l = 0 /\ syncNonce l = 0 /\
       forall a, ~ In (Call_getTransactionCount a) calls) /\
    (PrefetchOptions.nonce o = false ->
       settled (getTransactionCount (snd (net ca)) (address asyncAccount))
         = Fulfilled (asyncNonce l) /\
       settled (getTransactionCount (snd (net cs)) (address syncAccount))
         = Fulfilled (syncNonce l) /\
       In (Call_getTransactionCount (address asyncAccount)) calls /\
       In (Call_getTransactionCount (address syncAccount)) calls).
Proof.
  destruct st as [tk tr rj sto]. intros H; revert H. cbv zeta.
  destruct legacy; unfold_setup;
    destruct (PrefetchOptions.gasParams o), (PrefetchOptions.nonce o);
    cbn [negb]; case_settled;
    (intros H; inversion H; subst; clear H);
    cbn [asyncNonce syncNonce fst snd];
    rewrite <- ?app_assoc; cbn [app];
    first [ exists []; rewrite app_nil_r; split; [reflexivity|]
          | eexists; split; [reflexivity|] ];
    (split; intros Hn; try discriminate Hn);
    cbn [In];
    repeat split; try reflexivity; try tauto;
    try (intros addr Hin;
         repeat (destruct Hin as [Hin|Hin]; try discriminate Hin);
         destruct Hin).
Qed.

(** X10: a run has no error handling around its setup: the setup rejects
    exactly when gas prefetch is on and one of its three queries rejects, or
    nonce prefetch is off and one of the two transaction-count queries
    rejects; the run then rejects with it, before either flow is invoked
    and without publishing a result. *)
Theorem setup_rejection_aborts_run (o : PrefetchOptions.t) (st : State) :
  let pc := snd (net prefetchClients) in
  let setup := runBenchmark_setup clock net asyncAccount syncAccount o st in
  ((exists e, fst setup = Rejected e) <->
   (PrefetchOptions.gasParams o = true /\
    (rejects (getBlock pc) \/ rejects (request_maxPriorityFeePerGas pc) \/
     rejects (estimateGas pc (address asyncAccount) zeroAddress 0))) \/
   (PrefetchOptions.nonce o = false /\
    (rejects (getTransactionCount (snd (net tempAsyncClient)) (address asyncAccount)) \/
     rejects (getTransactionCount (snd (net tempSyncClient)) (address syncAccount))))) /\
  (forall e, fst setup = Rejected e ->
     runBenchmark_async cfg clock net asyncAccount syncAccount o st
       = (Rejected e, snd setup) /\
     runBenchmark_sync cfg clock net asyncAccount syncAccount o st
       = (Rejected e, snd setup)).
Proof.
  intros pc setup. subst pc setup. split.
  - unfold rejects. destruct st as [tk tr rj sto]. unfold_setup.
    destruct (PrefetchOptions.gasParams o), (PrefetchOptions.nonce o);
      cbn [negb]; case_settled;
      (split;
       [ intros [err Herr]; try discriminate Herr;
         first [ left; split; [reflexivity|];
                 first [ left; eexists; reflexivity
                       | right; left; eexists; reflexivity
                       | right; right; eexists; reflexivity ]
               | right; split; [reflexivity|];
                 first [ left; eexists; reflexivity
                       | right; eexists; reflexivity ] ]
       | intros [(Hg & [(err & H)|[(err & H)|(err & H)]])
                | (Hn & [(err & H)|(err & H)])];
         try discriminate; eexists; reflexivity ]).
  - intros e He. unfold runBenchmark_async, runBenchmark_sync, bind.
    destruct (runBenchmark_setup clock net asyncAccount syncAccount o st)
      as [[l|e'] st1]; cbn [fst snd] in *; [discriminate He|].
    inversion He; subst. split; reflexivity.
Qed.

End OrchestratorExtras.

Lemma setup_nonces_witness :
  settled (getTransactionCount (snd (Sample.net tempAsyncClient))
             (address Sample.asyncAccount))
  = Fulfilled (asyncNonce (Sample.launch Sample.none_prefetched)).
Proof.
  destruct (setup_nonces Sample.clock Sample.net Sample.asyncAccount
              Sample.syncAccount false Sample.none_prefetched initial_state
              (snd (runBenchmark_setup Sample.clock Sample.net Sample.asyncAccount
                      Sample.syncAccount Sample.none_prefetched initial_state))
              (Sample.launch Sample.none_prefetched) eq_refl)
    as (calls & _ & _ & H).
  exact (proj1 (H eq_refl)).
Defined.

(** ** More on the display helpers *)

Lemma substring_prefix (a b : string) :
  substring 0 (String.length a) (a ++ b) = a.
Proof.
  induction a as [|c a IH]; cbn.
  - destruct b; reflexivity.
  - now rewrite IH.
Qed.

Lemma substring_skip (a b : string) (n : nat) :
  substring (String.length a) n (a ++ b) = substring 0 n b.
Proof. induction a as [|c a IH]; cbn; [reflexivity | exact IH]. Qed.

Lemma substring_all (b : string) :
  substring 0 (String.length b) b = b.
Proof. induction b as [|c b IH]; cbn; [reflexivity | now rewrite IH]. Qed.

(** X11: truncating is idempotent: a hash that has been truncated is
    displayed unchanged when truncated again. *)
Theorem truncateHash_idempotent (hash : string) :
  truncateHash (truncateHash hash) = truncateHash hash.
Proof.
  destruct (Nat.lt_ge_cases (String.length hash) 10) as [Hs|Hl].
  - now rewrite !(truncateHash_short_unchanged hash Hs).
  - rewrite (truncateHash_long_shape hash Hl).
    set (A := substring 0 6 hash).
    set (B := substring (String.length hash - 4) 4 hash).
    assert (LA : String.length A = 6%nat)
      by (subst A; rewrite length_substring; lia).
    assert (LB : String.length B = 4%nat)
      by (subst B; rewrite length_substring; lia).
    assert (LT : String.length (A ++ "..." ++ B) = 13%nat)
      by (rewrite !length_append, LA, LB; reflexivity).
    rewrite truncateHash_long_shape by (rewrite LT; lia).
    rewrite LT. f_equal.
    + rewrite <- LA at 1. apply substring_prefix.
    + f_equal. change (13 - 4)%nat with 9%nat.
      replace (A ++ "..." ++ B) with ((A ++ "...") ++ B)
        by (clear; induction A as [|c A IH]; cbn; [reflexivity | now rewrite IH]).
      replace 9%nat with (String.length (A ++ "..."))
        by (rewrite length_append, LA; reflexivity).
      rewrite substring_skip. rewrite <- LB at 1. apply substring_all.
Qed.

(** X12: the hash shown is never longer than 13 characters, but it is
    longer than the input when the input has 10, 11 or 12 characters. *)
Theorem truncateHash_length (hash : string) :
  String.length (truncateHash hash)
  = (if String.length hash <? 10 then String.length hash else 13)%nat /\
  (String.length (truncateHash hash) <= 13)%nat /\
  ((10 <= String.length hash <= 12)%nat ->
   (String.length hash < String.length (truncateHash hash))%nat).
Proof.
  destruct (Nat.ltb_spec (String.length hash) 10) as [Hs|Hl].
  - rewrite (truncateHash_short_unchanged hash Hs). repeat split; lia.
  - rewrite (truncateHash_long_shape hash Hl).
    rewrite !length_append, !length_substring. cbn [String.length].
    repeat split; lia.
Qed.

Section ComparisonExtras.
Import Comparison.

(** X13: the winner's duration is the smaller of the two durations, the
    margin is what the other result took longer, and the margin is zero
    exactly on a tie, which the card awards to the async result. *)
Theorem winner_is_fastest (a s : BenchmarkResult) :
  duration (winning_result a s) = Z.min (duration a) (duration s) /\
  duration (winning_result a s) + timeDifference a s
    = Z.max (duration a) (duration s) /\
  (timeDifference a s = 0 <-> duration a = duration s) /\
  (duration a = duration s -> label (winner a s) = "Async").
Proof.
  unfold winning_result, winner, timeDifference.
  destruct (Z.ltb_spec (duration s) (duration a)).
  - repeat split; intros; lia.
  - repeat split; intros; try lia; reflexivity.
Qed.

End ComparisonExtras.

(** ** The component state over a run *)

Section DisplayFacts.
Variable clock : nat -> Z.
Variable net : Network.
Variables asyncAccount syncAccount : Account.

Lemma settle_order_irrelevant (ra rs : BenchmarkResult) (d : Display) :
  sync_settled rs (async_settled ra d) = async_settled ra (sync_settled rs d).
Proof. reflexivity. Qed.

(** X14: a run whose setup succeeds ends idle whichever flow settles
    first and whatever results the two flows settle with: the button is
    enabled again, both results are published as the flows returned them
    (also when a flow failed), the elapsed times shown are the results'
    durations, both partial results are cleared and both timers are
    stopped.  Until then the button stays disabled: after the first
    setters, when the flows start, after either flow has settled (its
    result is then already published, the other's is not) and after both
    have settled, in either order. *)
Theorem run_ends_idle (async_first : bool) (o : PrefetchOptions.t)
    (st st1 : State) (l : Launch) (ra rs : BenchmarkResult) (d : Display) :
  runBenchmark_setup clock net asyncAccount syncAccount o st = (Fulfilled l, st1) ->
  let d2 := flows_starting l (begin_run d) in
  let d' := runBenchmark_display clock net asyncAccount syncAccount
              async_first o st ra rs d in
  d' = mkDisplay false false (Some ra) (Some rs) None None
         (duration ra) (duration rs) false false /\
  button_disabled d' = false /\
  button_label d' = "Run Benchmark" /\
  button_disabled (begin_run d) = true /\
  button_disabled d2 = true /\
  (button_disabled (async_settled ra d2) = true /\
   asyncResult (async_settled ra d2) = Some ra /\
   syncResult (async_settled ra d2) = None) /\
  (button_disabled (sync_settled rs d2) = true /\
   syncResult (sync_settled rs d2) = Some rs /\
   asyncResult (sync_settled rs d2) = None) /\
  button_disabled (sync_settled rs (async_settled ra d2)) = true /\
  button_disabled (async_settled ra (sync_settled rs d2)) = true.
Proof.
  intros H d2 d'. subst d2 d'. unfold runBenchmark_display. rewrite H.
  destruct async_first; repeat split; reflexivity.
Qed.

(** X15: a run whose setup rejects never leaves the Preparing state: no
    result is published, no timer is started, and the button stays
    disabled under the label "Preparing...", so no further run can be
    started from it. *)
Theorem rejected_setup_stays_preparing (async_first : bool) (o : PrefetchOptions.t)
    (st : State) (e : Thrown) (ra rs : BenchmarkResult) (d : Display) :
  fst (runBenchmark_setup clock net asyncAccount syncAccount o st) = Rejected e ->
  let d' := runBenchmark_display clock net asyncAccount syncAccount
              async_first o st ra rs d in
  isPreparing d' = true /\
  button_disabled d' = true /\
  button_label d' = "Preparing..." /\
  asyncResult d' = None /\ syncResult d' = None /\
  asyncTimer d' = asyncTimer d /\ syncTimer d' = syncTimer d.
Proof.
  intros H d'. subst d'. unfold runBenchmark_display.
  destruct (runBenchmark_setup clock net asyncAccount syncAccount o st)
    as [[l|e'] st1]; cbn [fst] in H; [discriminate H|].
  repeat split; reflexivity.
Qed.

End DisplayFacts.

Lemma run_ends_idle_witness :
  button_label
    (runBenchmark_display Sample.clock Sample.net Sample.asyncAccount
       Sample.syncAccount true Sample.none_prefetched initial_state
       (Comparison.sample_result async 70 "0xabc1")
       (Comparison.sample_result sync 90 "0xabc3") initial_display)
  = "Run Benchmark".
Proof.
  apply (run_ends_idle Sample.clock Sample.net Sample.asyncAccount
           Sample.syncAccount true Sample.none_prefetched initial_state
           (snd (runBenchmark_setup Sample.clock Sample.net Sample.asyncAccount
                   Sample.syncAccount Sample.none_prefetched initial_state))
           (Sample.launch Sample.none_prefetched)
           (Comparison.sample_result async 70 "0xabc1")
           (Comparison.sample_result sync 90 "0xabc3") initial_display eq_refl).
Defined.

Lemma rejected_setup_stays_preparing_witness :
  button_label
    (runBenchmark_display Sample.clock SampleFailure.net
       Sample.asyncAccount Sample.syncAccount true Sample.everything_prefetched
       initial_state
       (Comparison.sample_result async 70 "0xabc1")
       (Comparison.sample_result sync 90 "0xabc3") initial_display)
  = "Preparing...".
Proof.
  apply (rejected_setup_stays_preparing Sample.clock SampleFailure.net
           Sample.asyncAccount Sample.syncAccount true Sample.everything_prefetched
           initial_state (ErrorObject "HTTP request failed")
           (Comparison.sample_result async 70 "0xabc1")
           (Comparison.sample_result sync 90 "0xabc3") initial_display
           eq_refl).
Defined.

(** ** The call log a flow returns *)

Section ResultLog.
Variable cfg : Config.
Variable clock : nat -> Z.

Ltac log_cases H :=
  case_settled; cbn [rpcCalls store];
  repeat apply call_log_entries_ok; exact H.

Lemma flow_log_entries_ok (wallet : WalletClient) (pub : PublicClient)
    (acct : Account) (p : bool) (arr : ArrayRef) (nonce : Z)
    (o : PrefetchOptions.t) (g : option PrefetchedGas.t) (st : State) :
  Forall entry_ok (store st arr) ->
  let clients := mkClients wallet pub (flow_observers arr) p acct in
  Forall entry_ok
    (rpcCalls (fst (runAsyncTransaction cfg clock clients nonce arr o g st))) /\
  Forall entry_ok
    (rpcCalls (fst (runSyncTransaction cfg clock clients nonce arr o g st))).
Proof.
  destruct st as [tk tr rj sto]. cbn [store]. intros H. cbv zeta.
  unfold_flow. cbv [transport walletClient publicClient account].
  split; [destruct (all_prefetched o g)|]; log_cases H.
Qed.

(** X16: the call log in a flow's result is well formed whenever the array
    it was given is: every pending entry has end time 0 and duration 0,
    every completed entry has duration = end - start, on the success and on
    the error branch of both flows. *)
Theorem flow_result_log_ok (wallet : WalletClient) (pub : PublicClient)
    (acct : Account) (p : bool) (arr : ArrayRef) (nonce : Z)
    (o : PrefetchOptions.t) (g : option PrefetchedGas.t) (st : State) :
  Forall entry_ok (store st arr) ->
  let clients := mkClients wallet pub (flow_observers arr) p acct in
  Forall entry_ok
    (rpcCalls (fst (runAsyncTransaction cfg clock clients nonce arr o g st))) /\
  Forall entry_ok
    (rpcCalls (fst (runSyncTransaction cfg clock clients nonce arr o g st))).
Proof.
  destruct st as [tk tr rj sto]. cbn [store]. intros H. cbv zeta.
  unfold_flow. cbv [transport walletClient publicClient account].
  split.
  - destruct (all_prefetched o g); log_cases H.
  - log_cases H.
Qed.

End ResultLog.

Lemma flow_result_log_ok_witness :
  Forall entry_ok
    (rpcCalls (fst (runAsyncTransaction Sample.cfg Sample.clock
                      (mkClients Sample.wallet Sample.public
                         (flow_observers asyncRPCCalls) false Sample.asyncAccount)
                      0 asyncRPCCalls Sample.none_prefetched None initial_state))).
Proof.
  apply (proj1 (flow_result_log_ok Sample.cfg Sample.clock Sample.wallet
                  Sample.public Sample.asyncAccount false asyncRPCCalls 0
                  Sample.none_prefetched None initial_state (Forall_nil _))).
Defined.

(** X17: in the orchestrator with the Preparing state the call log of each
    published result is well formed, whatever the network answers: the
    arrays are empty when the flows start and only the flow's own loggers
    write to them. *)
Theorem published_log_ok (cfg : Config) (clock : nat -> Z) (net : Network)
    (asyncAccount syncAccount : Account) (o : PrefetchOptions.t)
    (st st' : State) (res : BenchmarkResult) :
  runBenchmark_async cfg clock net asyncAccount syncAccount o st = (Fulfilled res, st') \/
  runBenchmark_sync cfg clock net asyncAccount syncAccount o st = (Fulfilled res, st') ->
  Forall entry_ok (rpcCalls res).
Proof.
  unfold runBenchmark_async, runBenchmark_sync, bind, lift, publish,
    async_side, sync_side.
  destruct (runBenchmark_setup clock net asyncAccount syncAccount o st)
    as [[l|e] st1] eqn:Es; [|intros [H|H]; discriminate H].
  destruct (setup_launch clock net asyncAccount syncAccount o st st1 l
              (or_introl Es)) as (_ & Ha & Hs & _).
  destruct (setup_leaves_logs_empty clock net asyncAccount syncAccount o st st1 l Es)
    as [Ea Eb].
  rewrite Ha, Hs. unfold flow_clients, createBenchmarkClients.
  intros [H|H].
  - pose proof (proj1 (flow_log_entries_ok cfg clock (fst (net asyncClients))
                  (snd (net asyncClients)) asyncAccount (PrefetchOptions.chainId o)
                  asyncRPCCalls (asyncNonce l) o (prefetchedGas l) st1
                  ltac:(rewrite Ea; constructor))) as Hok.
    unfold flow_observers in Hok.
    destruct (runAsyncTransaction _ _ _ _ _ _ _ st1) as [r st2].
    inversion H; subst. exact Hok.
  - pose proof (proj2 (flow_log_entries_ok cfg clock (fst (net syncClients))
                  (snd (net syncClients)) syncAccount (PrefetchOptions.chainId o)
                  syncRPCCalls (syncNonce l) o (prefetchedGas l) st1
                  ltac:(rewrite Eb; constructor))) as Hok.
    unfold flow_observers in Hok.
    destruct (runSyncTransaction _ _ _ _ _ _ _ st1) as [r st2].
    inversion H; subst. exact Hok.
Qed.

Lemma published_log_ok_witness :
  Forall entry_ok
    [mkRPCCallLog "eth_sendRawTransaction" 20 27 7 false;
     mkRPCCallLog "eth_getTransactionReceipt" 30 37 7 false].
Proof.
  apply (published_log_ok Sample.cfg Sample.clock Sample.net Sample.asyncAccount
           Sample.syncAccount Sample.none_prefetched initial_state
           (snd (runBenchmark_async Sample.cfg Sample.clock Sample.net
                   Sample.asyncAccount Sample.syncAccount Sample.none_prefetched
                   initial_state))
           (mkBenchmarkResult async 1020 1090 70 "0xabc1" success None
              [mkRPCCallLog "eth_sendRawTransaction" 20 27 7 false;
               mkRPCCallLog "eth_getTransactionReceipt" 30 37 7 false])).
  left. vm_compute. reflexivity.
Defined.
